(** * clink output normalisation: parsers and the Copilot recovery hook

    A shallow embedding of
    - [clink/parsers/copilot.py]  (CopilotPlaintextParser),
    - [clink/parsers/qwen.py]     (QwenStreamJsonParser),
    - [clink/agents/copilot.py]   (CopilotAgent._recover_from_error),
    together with the properties the specification states about them.

    Python [str] values are sequences of Unicode code points, JSON values
    are the values [json.loads] produces, the metadata dictionary is a
    finite map, and a raised exception is an explicit outcome. *)

From Stdlib Require Import ZArith NArith Floats.SpecFloat.
From stdpp Require Import base option list gmap strings.

Local Open Scope N_scope.

(** ** Python strings *)

Module Py.

(** A [str] is its sequence of code points. *)
Abbreviation str := (list N).

(** A literal of the source, written as a Rocq string of ASCII characters. *)
Definition py (s : string) : str :=
  map Ascii.N_of_ascii (String.list_ascii_of_string s).

(** [c.isspace()] for a single code point: the characters [str.strip()]
    removes when called without argument. *)
Definition isspace (c : N) : bool :=
  ((0x09 <=? c) && (c <=? 0x0D)) || ((0x1C <=? c) && (c <=? 0x1F))
  || (c =? 0x20) || (c =? 0x85) || (c =? 0xA0) || (c =? 0x1680)
  || ((0x2000 <=? c) && (c <=? 0x200A))
  || (c =? 0x2028) || (c =? 0x2029) || (c =? 0x202F) || (c =? 0x205F)
  || (c =? 0x3000).

(** The line boundaries of [str.splitlines()]. *)
Definition islinebreak (c : N) : bool :=
  ((0x0A <=? c) && (c <=? 0x0D)) || ((0x1C <=? c) && (c <=? 0x1E))
  || (c =? 0x85) || (c =? 0x2028) || (c =? 0x2029).

Fixpoint lstrip (s : str) : str :=
  match s with
  | [] => []
  | c :: t => if isspace c then lstrip t else s
  end.

Definition rstrip (s : str) : str := rev (lstrip (rev s)).

Definition strip (s : str) : str := rstrip (lstrip s).

(** [s.splitlines()]: [cur] is the line being read, in reverse; a carriage
    return directly followed by a line feed is one boundary; a final line
    without terminator is kept, an empty tail is not. *)
Fixpoint splitlines_from (cur : str) (s : str) : list str :=
  match s with
  | [] => match cur with [] => [] | _ => [rev cur] end
  | c :: t =>
      if islinebreak c then
        rev cur ::
          match t with
          | d :: t' =>
              if (c =? 0x0D) && (d =? 0x0A) then splitlines_from [] t'
              else splitlines_from [] t
          | [] => splitlines_from [] t
          end
      else splitlines_from (c :: cur) t
  end.

Definition splitlines (s : str) : list str := splitlines_from [] s.

(** [s.startswith(p)]. *)
Fixpoint startswith (s p : str) : bool :=
  match p, s with
  | [], _ => true
  | _ :: _, [] => false
  | a :: p', b :: s' => (a =? b) && startswith s' p'
  end.

(** [sep.join(parts)] on strings. *)
Fixpoint join (sep : str) (parts : list str) : str :=
  match parts with
  | [] => []
  | [p] => p
  | p :: ps => p ++ sep ++ join sep ps
  end.

(** Truth value of a sequence: non-empty. *)
Definition truthy_seq {A} (l : list A) : bool :=
  match l with [] => false | _ :: _ => true end.

(** The one-character strings the source writes with an escape or a quote. *)
Definition newline : str := [0x0A].

(** [needle in s]. *)
Fixpoint contains (s needle : str) : bool :=
  startswith s needle ||
  match s with
  | [] => false
  | _ :: t => contains t needle
  end.

(** ** JSON values, as [json.loads] builds them

    [int] is unbounded, [float] is a binary float, a [dict] keeps its keys
    in insertion order. *)
#[warnings="-register-all"]
Inductive json : Type :=
| JNull
| JBool (b : bool)
| JInt (z : Z)
| JFloat (f : spec_float)
| JStr (s : str)
| JList (l : list json)
| JDict (d : list (str * json)).

Abbreviation dict := (list (str * json)).

(** [d.get(k)] with the entry absent told apart from an entry holding
    [None]. *)
Fixpoint lookup_key (d : dict) (k : str) : option json :=
  match d with
  | [] => None
  | (k', v) :: d' => if bool_decide (k' = k) then Some v else lookup_key d' k
  end.

(** [d.get(k, dflt)]. *)
Definition get_default (d : dict) (k : str) (dflt : json) : json :=
  default dflt (lookup_key d k).

(** [d.get(k)]. *)
Definition get (d : dict) (k : str) : json := get_default d k JNull.

(** [k in d]. *)
Definition has_key (d : dict) (k : str) : bool :=
  bool_decide (is_Some (lookup_key d k)).

(** [bool(v)]. *)
Definition truthy (v : json) : bool :=
  match v with
  | JNull => false
  | JBool b => b
  | JInt z => negb (z =? 0)%Z
  | JFloat (S754_zero _) => false
  | JFloat _ => true
  | JStr s => truthy_seq s
  | JList l => truthy_seq l
  | JDict d => truthy_seq d
  end.

(** [v == lit] for a string literal [lit]: only a [str] equals a [str]. *)
Definition eq_str (v : json) (lit : str) : bool :=
  match v with
  | JStr s => bool_decide (s = lit)
  | _ => false
  end.

(** The exceptions the modelled code can leave through: its own
    [ParserError], the [TypeError] of a join over a value that is no
    [str], and those [json.loads] raises besides [json.JSONDecodeError]. *)
Inductive exn : Type :=
| ParserError (msg : str)
| TypeError
| ValueError
| RecursionError.

(** Outcome of a call: a returned value or a raised exception. *)
Inductive outcome (A : Type) : Type :=
| Return (a : A)
| Raise (e : exn).
Arguments Return {A} a.
Arguments Raise {A} e.

(** What [json.loads] does on a line that starts with an opening brace:
    it returns the decoded object, raises [json.JSONDecodeError], or
    raises another exception (a [RecursionError] on deep nesting, a plain
    [ValueError] on an integer literal past the digit limit). *)
Inductive loaded : Type :=
| Loaded (event : dict)
| JSONDecodeError
| Uncaught (e : exn).

End Py.

Import Py.

(** ** clink/parsers/base.py and clink/agents/base.py *)

Module Base.

(** Modelled from the spec: [ParsedCLIResponse] of clink/parsers/base.py
    (the spec's ParsedResponse), a content text and a metadata mapping
    from string keys to JSON-compatible values. *)
Record ParsedCLIResponse : Type := {
  content : str;
  metadata : gmap str json
}.

(** Modelled from the spec: [BaseParser] of clink/parsers/base.py (the
    spec's Parser contract), a name and a parse function of the two
    captured texts that returns a response or raises. *)
Record BaseParser : Type := {
  name : str;
  parse : str → str → outcome ParsedCLIResponse
}.

(** Modelled from the spec: [AgentOutput] of clink/agents/base.py (the
    spec's ExecutionResult). *)
Record AgentOutput : Type := {
  parsed : ParsedCLIResponse;
  sanitized_command : list str;
  returncode : Z;
  stdout : str;
  stderr : str;
  duration_seconds : spec_float;
  parser_name : str;
  output_file_content : option str
}.

End Base.

Import Base.

(** ** clink/parsers/copilot.py *)

Module CopilotPlaintextParser.

Definition name : str := py "copilot_plaintext".

Definition placeholder : str :=
  py "Copilot CLI returned no textual result. Raw stderr was preserved for troubleshooting.".

Definition parse (stdout stderr : str) : outcome ParsedCLIResponse :=
  let content := strip stdout in
  if negb (truthy_seq content) then
    let stderr_text := strip stderr in
    if truthy_seq stderr_text then
      Return {| content := placeholder;
                metadata := {[ py "stderr" := JStr stderr_text ]} |}
    else Raise (ParserError (py "Copilot CLI returned empty output"))
  else
    let metadata : gmap str json := ∅ in
    let stderr_text := strip stderr in
    let metadata :=
      if truthy_seq stderr_text
      then <[ py "stderr" := JStr stderr_text ]> metadata
      else metadata in
    Return {| content := content; metadata := metadata |}.

Definition parser : BaseParser := {| Base.name := name; Base.parse := parse |}.

End CopilotPlaintextParser.

(** ** clink/parsers/qwen.py *)

Module QwenStreamJsonParser.

Definition name : str := py "qwen_stream_json".

Definition placeholder : str :=
  py "Qwen CLI returned no textual result. Raw stderr was preserved for troubleshooting.".

Definition empty_stdout_message : str :=
  py "Qwen CLI returned empty stdout while stream-json output was expected".

Definition no_result_message : str :=
  py "Qwen CLI stream-json output did not contain a result or assistant message".

(** The four variables the scanning loop of [parse] updates. *)
Record scan_state : Type := {
  events : list dict;
  result_message : option dict;
  last_assistant_message : option dict;
  system_message : option dict
}.

Definition scan_init : scan_state :=
  {| events := []; result_message := None;
     last_assistant_message := None; system_message := None |}.

(** [if m:] for a variable that is [None] or a [dict]. *)
Definition truthy_opt (m : option dict) : bool :=
  match m with
  | None => false
  | Some d => truthy_seq d
  end.

(** [lines = [line.strip() for line in stdout.splitlines() if line.strip()]] *)
Definition lines_of (stdout : str) : list str :=
  map strip (List.filter (λ line, truthy_seq (strip line)) (splitlines stdout)).

(** [if stderr and stderr.strip(): metadata["stderr"] = stderr.strip()] *)
Definition with_stderr (stderr : str) (metadata : gmap str json) : gmap str json :=
  if truthy_seq stderr && truthy_seq (strip stderr)
  then <[ py "stderr" := JStr (strip stderr) ]> metadata
  else metadata.

(** The body of the loop over [content_blocks] in [_extract_assistant_text]. *)
Definition extract_block (text_parts : list str) (block : json) : list str :=
  match block with
  | JDict block =>
      let block_type := get block (py "type") in
      if eq_str block_type (py "text") then
        match get block (py "text") with
        | JStr text =>
            if truthy_seq (strip text) then text_parts ++ [strip text]
            else text_parts
        | _ => text_parts
        end
      else if eq_str block_type (py "thinking") then
        match get block (py "thinking") with
        | JStr thinking =>
            if truthy_seq (strip thinking)
            then text_parts ++ [py "[Thinking: " ++ strip thinking ++ py "]"]
            else text_parts
        | _ => text_parts
        end
      else text_parts
  | _ => text_parts
  end.

Definition _extract_assistant_text (assistant_msg : dict) : option str :=
  match get assistant_msg (py "message") with
  | JDict message =>
      match get message (py "content") with
      | JList content_blocks =>
          let text_parts := fold_left extract_block content_blocks [] in
          if truthy_seq text_parts
          then Some (join (newline ++ newline) text_parts)
          else None
      | _ => None
      end
  | _ => None
  end.

(** [metadata] after the block [if system_message:] (lines 56-60). *)
Definition harvest_system (system_message : option dict)
    (metadata : gmap str json) : gmap str json :=
  match system_message with
  | Some system_message =>
      if truthy_seq system_message then
        let metadata :=
          <[ py "session_id" := get system_message (py "session_id") ]> metadata in
        let metadata :=
          <[ py "model" := get system_message (py "model") ]> metadata in
        if has_key system_message (py "qwen_code_version")
        then <[ py "cli_version" := get system_message (py "qwen_code_version") ]> metadata
        else metadata
      else metadata
  | None => metadata
  end.

(** [metadata] after lines 64-81 of the block [if result_message:]. *)
Definition harvest_result (result_message : dict)
    (metadata : gmap str json) : gmap str json :=
  let metadata :=
    <[ py "is_error" := get_default result_message (py "is_error") (JBool false) ]> metadata in
  let metadata := <[ py "num_turns" := get result_message (py "num_turns") ]> metadata in
  let metadata := <[ py "duration_ms" := get result_message (py "duration_ms") ]> metadata in
  let metadata :=
    <[ py "duration_api_ms" := get result_message (py "duration_api_ms") ]> metadata in
  let usage := get result_message (py "usage") in
  let metadata :=
    match usage with
    | JDict _ => <[ py "usage" := usage ]> metadata
    | _ => metadata
    end in
  let model_usage := get result_message (py "modelUsage") in
  let metadata :=
    match model_usage with
    | JDict ((first_model, _) :: _) =>
        let metadata := <[ py "model_usage" := model_usage ]> metadata in
        <[ py "model_used" := JStr first_model ]> metadata
    | _ => metadata
    end in
  let permission_denials := get result_message (py "permission_denials") in
  match permission_denials with
  | JList (_ :: _) => <[ py "permission_denials" := permission_denials ]> metadata
  | _ => metadata
  end.

(** [errors] and [metadata] after lines 84-89: [errors] starts empty and
    receives at most one entry, whatever value the [message] field holds. *)
Definition harvest_error (result_message : dict)
    (metadata : gmap str json) : list json * gmap str json :=
  if truthy (get result_message (py "is_error")) then
    let error_info := get result_message (py "error") in
    match error_info with
    | JDict info =>
        let error_msg := get_default info (py "message") (JStr (py "Unknown error")) in
        ([error_msg], <[ py "error" := error_info ]> metadata)
    | _ => ([], metadata)
    end
  else ([], metadata).

(** [sep.join(items)] on a list of arbitrary values: a [TypeError] unless
    every item is a [str]. *)
Fixpoint strs_of (items : list json) : option (list str) :=
  match items with
  | [] => Some []
  | JStr s :: rest => cons s <$> strs_of rest
  | _ :: _ => None
  end.

Definition join_items (sep : str) (items : list json) : outcome str :=
  match strs_of items with
  | Some parts => Return (join sep parts)
  | None => Raise TypeError
  end.

(** Lines 112-120. *)
Definition last_resort (stderr : str) (metadata : gmap str json) : outcome ParsedCLIResponse :=
  if truthy_seq stderr && truthy_seq (strip stderr) then
    let metadata := <[ py "stderr" := JStr (strip stderr) ]> metadata in
    Return {| content := placeholder; metadata := metadata |}
  else Raise (ParserError no_result_message).

(** Lines 106-120. *)
Definition errors_branch (errors : list json) (stderr : str)
    (metadata : gmap str json) : outcome ParsedCLIResponse :=
  if truthy_seq errors then
    let metadata := with_stderr stderr metadata in
    match join_items newline errors with
    | Return content => Return {| content := content; metadata := metadata |}
    | Raise e => Raise e
    end
  else last_resort stderr metadata.

(** Lines 98-120: what [parse] does once the result block has not returned. *)
Definition after_result (last_assistant_message : option dict) (errors : list json)
    (stderr : str) (metadata : gmap str json) : outcome ParsedCLIResponse :=
  let next := errors_branch errors stderr metadata in
  match last_assistant_message with
  | Some assistant_msg =>
      if truthy_seq assistant_msg then
        match _extract_assistant_text assistant_msg with
        | Some content =>
            if truthy_seq content
            then Return {| content := content; metadata := with_stderr stderr metadata |}
            else next
        | None => next
        end
      else next
  | None => next
  end.

(** Lines 56-120, entered with the [metadata] line 54 has built and the
    three messages the loop has remembered. *)
Definition respond (metadata : gmap str json)
    (result_message last_assistant_message system_message : option dict)
    (stderr : str) : outcome ParsedCLIResponse :=
  let metadata := harvest_system system_message metadata in
  match result_message with
  | Some result_message =>
      if truthy_seq result_message then
        let metadata := harvest_result result_message metadata in
        let '(errors, metadata) := harvest_error result_message metadata in
        let next := after_result last_assistant_message errors stderr metadata in
        match get result_message (py "result") with
        | JStr result_text =>
            if truthy_seq (strip result_text)
            then Return {| content := strip result_text;
                           metadata := with_stderr stderr metadata |}
            else next
        | _ => next
        end
      else after_result last_assistant_message [] stderr metadata
  | None => after_result last_assistant_message [] stderr metadata
  end.

(** Lines 53-120: the response built from the variables the loop left. *)
Definition build_response (st : scan_state) (stderr : str) : outcome ParsedCLIResponse :=
  let metadata : gmap str json :=
    {[ py "raw_events" := JList (JDict <$> events st) ]} in
  respond metadata (result_message st) (last_assistant_message st)
    (system_message st) stderr.

Section Decoder.

(** [json.loads], on the lines the loop passes to it. *)
Variable json_loads : str → loaded.

(** The body of the loop [for line in lines] (lines 36-51): the [except]
    clause of line 40 catches [json.JSONDecodeError] alone, any other
    exception of [json.loads] leaves the loop and [parse]. *)
Definition scan_line (st : scan_state) (line : str) : outcome scan_state :=
  if negb (startswith line (py "{")) then Return st
  else
    match json_loads line with
    | Uncaught e => Raise e
    | JSONDecodeError => Return st
    | Loaded event =>
        let events := events st ++ [event] in
        let event_type := get event (py "type") in
        if eq_str event_type (py "result") then
          Return {| events := events; result_message := Some event;
                    last_assistant_message := last_assistant_message st;
                    system_message := system_message st |}
        else if eq_str event_type (py "assistant") then
          Return {| events := events; result_message := result_message st;
                    last_assistant_message := Some event;
                    system_message := system_message st |}
        else if eq_str event_type (py "system") then
          Return {| events := events; result_message := result_message st;
                    last_assistant_message := last_assistant_message st;
                    system_message := Some event |}
        else
          Return {| events := events; result_message := result_message st;
                    last_assistant_message := last_assistant_message st;
                    system_message := system_message st |}
    end.

(** The loop from the state [st] on: it stops at the first line on which
    the body raises. *)
Fixpoint scan_from (st : scan_state) (lines : list str) : outcome scan_state :=
  match lines with
  | [] => Return st
  | line :: lines =>
      match scan_line st line with
      | Return st => scan_from st lines
      | Raise e => Raise e
      end
  end.

Definition scan (lines : list str) : outcome scan_state :=
  scan_from scan_init lines.

Definition parse (stdout stderr : str) : outcome ParsedCLIResponse :=
  if negb (truthy_seq (strip stdout)) then Raise (ParserError empty_stdout_message)
  else
    let lines := lines_of stdout in
    match scan lines with
    | Return st => build_response st stderr
    | Raise e => Raise e
    end.

Definition parser : BaseParser := {| Base.name := name; Base.parse := parse |}.

End Decoder.

End QwenStreamJsonParser.

(** ** clink/agents/copilot.py *)

Module CopilotAgent.

(** The part of [BaseCLIAgent] the hook reads: the configured parser. *)
Record t : Type := { _parser : BaseParser }.

Definition _recover_from_error (self : t) (returncode : Z) (stdout stderr : str)
    (sanitized_command : list str) (duration_seconds : spec_float)
    (output_file_content : option str) : option AgentOutput :=
  let combined :=
    strip (join newline (List.filter truthy_seq [stdout; stderr])) in
  if negb (truthy_seq combined) then None
  else
    let metadata : gmap str json :=
      <[ py "cli_returncode" := JInt returncode ]>
        (<[ py "cli_error_recovered" := JBool true ]> ∅) in
    let parsed := {| content := combined; metadata := metadata |} in
    Some {| parsed := parsed;
            sanitized_command := sanitized_command;
            returncode := returncode;
            stdout := stdout;
            stderr := stderr;
            duration_seconds := duration_seconds;
            parser_name := Base.name (_parser self);
            output_file_content := output_file_content |}.

End CopilotAgent.

(** ** The specification's vocabulary

    The definitions below follow the wording of the specification; the
    theorems relate them to the parsers above. *)

Module Spec.

(** The trimmed stderr as a metadata entry: present when it is non-empty. *)
Definition stderr_entry (stderr : str) : option json :=
  match strip stderr with
  | [] => None
  | text => Some (JStr text)
  end.

(** The trimmed, non-blank lines of the captured stdout, in order. *)
Definition trimmed_nonblank_lines (stdout : str) : list str :=
  List.filter truthy_seq (map strip (splitlines stdout)).

(** An event carries the type tag [t]. *)
Definition has_type (t : str) (event : dict) : bool :=
  match lookup_key event (py "type") with
  | Some (JStr s) => bool_decide (s = t)
  | _ => false
  end.

(** The last event, in stream order, that carries the tag [t]. *)
Definition last_of_type (t : str) (evs : list dict) : option dict :=
  last (List.filter (has_type t) evs).

(** The content a result event yields: its [result] field when that is a
    string with a non-empty trim. *)
Definition result_text (r : dict) : option str :=
  match lookup_key r (py "result") with
  | Some (JStr s) =>
      match strip s with
      | [] => None
      | text => Some text
      end
  | _ => None
  end.

(** What one content block contributes to the assistant text. *)
Definition block_part (block : json) : option str :=
  match block with
  | JDict b =>
      if has_type (py "text") b then
        match lookup_key b (py "text") with
        | Some (JStr s) =>
            match strip s with [] => None | text => Some text end
        | _ => None
        end
      else if has_type (py "thinking") b then
        match lookup_key b (py "thinking") with
        | Some (JStr s) =>
            match strip s with
            | [] => None
            | text => Some (py "[Thinking: " ++ text ++ py "]")
            end
        | _ => None
        end
      else None
  | _ => None
  end.

(** The content blocks of an assistant event: [message.content] when the
    nesting is there, no block otherwise. *)
Definition assistant_blocks (a : dict) : list json :=
  match lookup_key a (py "message") with
  | Some (JDict m) =>
      match lookup_key m (py "content") with
      | Some (JList blocks) => blocks
      | _ => []
      end
  | _ => []
  end.

(** The contributing parts, in block order, separated by a blank line. *)
Definition assistant_text (a : dict) : str :=
  join (newline ++ newline) (omap block_part (assistant_blocks a)).

(** The error messages a result event makes the parser collect. *)
Definition collected_errors (r : dict) : list json :=
  if truthy (get r (py "is_error")) then
    match lookup_key r (py "error") with
    | Some (JDict info) =>
        [default (JStr (py "Unknown error")) (lookup_key info (py "message"))]
    | _ => []
    end
  else [].

(** The remembered message after a run of the loop: the last event of the
    kind among the new ones, else the one remembered before. *)
Definition remembered (before : option dict) (t : str) (evs : list dict) : option dict :=
  match last_of_type t evs with
  | Some e => Some e
  | None => before
  end.

(** The metadata keys written from the system event, and those written
    after it: from the result event, and the stderr entry. *)
Definition system_keys : list str :=
  [py "session_id"; py "model"; py "cli_version"].

Definition result_keys : list str :=
  [py "is_error"; py "num_turns"; py "duration_ms"; py "duration_api_ms";
   py "usage"; py "model_usage"; py "model_used"; py "permission_denials"].

Definition late_keys : list str :=
  result_keys ++ [py "error"; py "stderr"].

(** The metadata harvested from the last system and result events, on
    top of [md]: what every returned response carries, stderr apart. *)
Definition harvested (rm sm : option dict) (md : gmap str json) : gmap str json :=
  let md := QwenStreamJsonParser.harvest_system sm md in
  match rm with
  | Some r =>
      if truthy_seq r
      then (QwenStreamJsonParser.harvest_error r
              (QwenStreamJsonParser.harvest_result r md)).2
      else md
  | None => md
  end.
Arguments harvested : simpl never.


(** The newline-joined concatenation of the non-empty ones among stdout
    then stderr, trimmed. *)
Definition combined_output (stdout stderr : str) : str :=
  strip match stdout, stderr with
        | [], [] => []
        | [], _ => stderr
        | _, [] => stdout
        | _, _ => stdout ++ newline ++ stderr
        end.

Section Decoder.

Variable json_loads : str → loaded.

(** The trimmed non-blank lines that start with an opening brace. *)
Definition brace_lines (stdout : str) : list str :=
  List.filter (λ line, startswith line (py "{")) (trimmed_nonblank_lines stdout).

(** The object a line decodes to, when it decodes. *)
Definition decoded (line : str) : option dict :=
  match json_loads line with
  | Loaded event => Some event
  | _ => None
  end.

(** The exception [json.loads] raises on a line, when that is not
    [json.JSONDecodeError]. *)
Definition let_through (line : str) : option exn :=
  match json_loads line with
  | Uncaught e => Some e
  | _ => None
  end.

(** The objects decoded, in line order and with repetitions, from those
    trimmed non-blank lines that start with an opening brace and decode. *)
Definition decoded_events (stdout : str) : list dict :=
  omap decoded (brace_lines stdout).

(** The exceptions other than [json.JSONDecodeError] that [json.loads]
    raises on the brace lines, in line order: empty when every brace line
    decodes or fails with [json.JSONDecodeError]. *)
Definition uncaught (stdout : str) : list exn :=
  omap let_through (brace_lines stdout).

End Decoder.

End Spec.

(** ** Sample streams

    Concrete inputs on which the theorems below are instantiated. *)

Module Samples.

(** A JSON line, written with an apostrophe where the line has a double
    quote. *)
Definition jl (s : string) : str :=
  map (λ c, if c =? 0x27 then 0x22 else c) (py s).

Definition system_line : str :=
  jl "{'type':'system','session_id':'sess-1','model':'qwen-coder'}".

Definition system_event : dict :=
  [(py "type", JStr (py "system"));
   (py "session_id", JStr (py "sess-1"));
   (py "model", JStr (py "qwen-coder"))].

Definition assistant_line : str :=
  jl "{'type':'assistant','message':{'content':[{'type':'thinking','thinking':' Let me see '},{'type':'text','text':'The answer is 42.'}]}}".

Definition assistant_event : dict :=
  [(py "type", JStr (py "assistant"));
   (py "message",
    JDict [(py "content",
            JList [JDict [(py "type", JStr (py "thinking"));
                          (py "thinking", JStr (py " Let me see "))];
                   JDict [(py "type", JStr (py "text"));
                          (py "text", JStr (py "The answer is 42."))]])])].

Definition draft_line : str :=
  jl "{'type':'result','is_error':false,'result':'Draft.'}".

Definition draft_event : dict :=
  [(py "type", JStr (py "result"));
   (py "is_error", JBool false);
   (py "result", JStr (py "Draft."))].

Definition result_line : str :=
  jl "{'type':'result','is_error':false,'result':' Done. '}".

Definition result_event : dict :=
  [(py "type", JStr (py "result"));
   (py "is_error", JBool false);
   (py "result", JStr (py " Done. "))].

(** [json.loads] on the sample lines; the other lines fed to it below
    ([{broken]) are no JSON. *)
Definition loads (line : str) : loaded :=
  if bool_decide (line = system_line) then Loaded system_event
  else if bool_decide (line = assistant_line) then Loaded assistant_event
  else if bool_decide (line = draft_line) then Loaded draft_event
  else if bool_decide (line = result_line) then Loaded result_event
  else JSONDecodeError.

(** [lines] joined by line feeds. *)
Definition stream (lines : list str) : str := join newline lines.

(** A banner, a system event twice, a broken line, an assistant event and
    two result events. *)
Definition full_stdout : str :=
  stream [py "Qwen banner"; system_line; system_line; py "{broken";
          assistant_line; draft_line; py "   "; result_line].

(** A system event and an assistant event, no result. *)
Definition cut_stdout : str :=
  stream [system_line; assistant_line].

(** Only a system event. *)
Definition bare_stdout : str := system_line.

Definition warning : str := py "  warning: slow network  ".

End Samples.

(** ** Sample streams that end in an error result *)

Module ErrorSamples.

Import Samples.

Definition error_line : str :=
  jl "{'type':'result','is_error':true,'num_turns':2,'usage':{'input_tokens':3},'modelUsage':{'qwen-max':1,'qwen-lite':2},'permission_denials':['rm'],'error':{'message':'Rate limit exceeded'}}".

Definition error_event : dict :=
  [(py "type", JStr (py "result"));
   (py "is_error", JBool true);
   (py "num_turns", JInt 2);
   (py "usage", JDict [(py "input_tokens", JInt 3)]);
   (py "modelUsage", JDict [(py "qwen-max", JInt 1); (py "qwen-lite", JInt 2)]);
   (py "permission_denials", JList [JStr (py "rm")]);
   (py "error", JDict [(py "message", JStr (py "Rate limit exceeded"))])].

(** An error result whose message is the empty string. *)
Definition blank_error_line : str :=
  jl "{'type':'result','is_error':true,'error':{'message':''}}".

Definition blank_error_event : dict :=
  [(py "type", JStr (py "result"));
   (py "is_error", JBool true);
   (py "error", JDict [(py "message", JStr [])])].

(** An error result whose message is a number. *)
Definition coded_error_line : str :=
  jl "{'type':'result','is_error':true,'error':{'message':429}}".

Definition coded_error_event : dict :=
  [(py "type", JStr (py "result"));
   (py "is_error", JBool true);
   (py "error", JDict [(py "message", JInt 429)])].

(** [json.loads] on the lines above and on those of [Samples]. *)
Definition loads_errors (line : str) : loaded :=
  if bool_decide (line = error_line) then Loaded error_event
  else if bool_decide (line = blank_error_line) then Loaded blank_error_event
  else if bool_decide (line = coded_error_line) then Loaded coded_error_event
  else loads line.

Definition error_stdout : str := stream [system_line; error_line].

Definition blank_error_stdout : str := stream [system_line; blank_error_line].

Definition coded_error_stdout : str := stream [system_line; coded_error_line].

End ErrorSamples.

(** ** Sample lines on which [json.loads] raises no [JSONDecodeError] *)

Module UncaughtSamples.

Import Samples.

(** An object that holds 5000 nested arrays: [json.loads] raises
    [RecursionError] on it. *)
Definition deep_line : str :=
  jl "{'x':" ++ repeat 0x5B (N.to_nat 5000) ++ repeat 0x5D (N.to_nat 5000)
  ++ py "}".

(** An object that holds an integer literal of 5000 digits, past the limit
    of 4300 digits of the conversion from text: [json.loads] raises a
    plain [ValueError] on it. *)
Definition digits_line : str :=
  jl "{'type':'system','n':" ++ repeat 0x31 (N.to_nat 5000) ++ py "}".

(** [json.loads] on the two lines above and on those of [Samples]. *)
Definition loads_uncaught (line : str) : loaded :=
  if bool_decide (line = deep_line) then Uncaught RecursionError
  else if bool_decide (line = digits_line) then Uncaught ValueError
  else loads line.

(** A result event, then the deep line. *)
Definition result_then_deep : str := stream [system_line; result_line; deep_line].

(** An assistant event, then the line with the long integer. *)
Definition assistant_then_digits : str := stream [assistant_line; digits_line].

End UncaughtSamples.

(** * Properties *)

(** ** Facts about the string operations *)

Section StringFacts.

Implicit Types (s cur : str) (c : N).

Lemma truthy_seq_true {A} (l : list A) : truthy_seq l = true ↔ l ≠ [].
Proof. by destruct l. Qed.

Lemma truthy_seq_false {A} (l : list A) : truthy_seq l = false ↔ l = [].
Proof. by destruct l. Qed.

(** A string holds ink when one of its characters is not white space. *)
Local Abbreviation ink := (Exists (λ c, isspace c = false)).

Lemma lstrip_ink s : lstrip s ≠ [] ↔ ink s.
Proof.
  induction s as [|c s IH]; simpl.
  - split; [done | inversion 1].
  - destruct (isspace c) eqn:Hc.
    + rewrite IH. split; [by right |].
      inversion 1; [congruence | done].
    + split; [by left | done].
Qed.

Lemma ink_lstrip s : ink (lstrip s) ↔ ink s.
Proof.
  induction s as [|c s IH]; simpl; [done |].
  destruct (isspace c) eqn:Hc; [| done].
  rewrite IH. split; [by right |].
  inversion 1; [congruence | done].
Qed.

Lemma ink_rev s : ink (rev s) ↔ ink s.
Proof.
  split; intros H.
  - rewrite <- (rev_involutive s). by apply Exists_rev.
  - by apply Exists_rev.
Qed.

Lemma rev_nil_iff {A} (l : list A) : rev l = [] ↔ l = [].
Proof.
  split; [| by intros ->].
  intros H. apply (f_equal (@rev A)) in H. by rewrite rev_involutive in H.
Qed.

(** Trimming leaves something exactly when the string holds ink. *)
Lemma strip_ink s : strip s ≠ [] ↔ ink s.
Proof.
  unfold strip, rstrip.
  rewrite rev_nil_iff, lstrip_ink, ink_rev. apply ink_lstrip.
Qed.

Lemma strip_nil : strip [] = [].
Proof. reflexivity. Qed.

(** [stderr and stderr.strip()] tests no more than the trim. *)
Lemma truthy_and_strip s :
  truthy_seq s && truthy_seq (strip s) = truthy_seq (strip s).
Proof. by destruct s. Qed.

(** Every character of a line of [splitlines] comes from the text. *)
Lemma splitlines_from_ink (n : nat) : ∀ s cur,
  (length s ≤ n)%nat →
  Exists ink (splitlines_from cur s) → ink cur ∨ ink s.
Proof.
  induction n as [|n IH]; intros [|c t] cur Hn; simpl in *; try lia.
  - destruct cur; [inversion 1 |].
    intros H. left. apply Exists_cons in H as [H | H]; [| inversion H].
    by apply ink_rev.
  - destruct cur; [inversion 1 |].
    intros H. left. apply Exists_cons in H as [H | H]; [| inversion H].
    by apply ink_rev.
  - destruct (islinebreak c) eqn:Hc.
    + intros H. apply Exists_cons in H as [H | H].
      { left. by apply ink_rev. }
      right. right.
      destruct t as [|d t']; [by inversion H |].
      destruct ((c =? 0x0D) && (d =? 0x0A)).
      * apply IH in H as [H | H]; [inversion H | by right | simpl in *; lia].
      * apply IH in H as [H | H]; [inversion H | done | simpl in *; lia].
    + intros H. apply IH in H as [H | H]; [| by right; right | lia].
      apply Exists_cons in H as [H | H]; [right; by left | by left].
Qed.

Lemma splitlines_ink s : Exists ink (splitlines s) → ink s.
Proof.
  intros H. apply (splitlines_from_ink (length s)) in H as [H | H];
    [inversion H | done | lia].
Qed.

Lemma startswith_cons_inv s c : startswith s [c] = true → ∃ t, s = c :: t.
Proof.
  destruct s as [|b t]; simpl; [done |].
  intros [->%N.eqb_eq _]%andb_true_iff. by exists t.
Qed.

End StringFacts.

(** ** The scanning loop of the stream parser *)

Section ScanFacts.

Import QwenStreamJsonParser Spec.

Variable json_loads : str → loaded.

Implicit Types (st : scan_state) (e event : dict) (evs : list dict) (t : str).

(** Filtering before or after trimming gives the same lines. *)
Lemma lines_of_trimmed stdout : lines_of stdout = trimmed_nonblank_lines stdout.
Proof.
  unfold lines_of, trimmed_nonblank_lines.
  induction (splitlines stdout) as [|l ls IH]; simpl; [done |].
  destruct (truthy_seq (strip l)); simpl; by rewrite IH.
Qed.

Lemma eq_str_get_type e t : eq_str (get e (py "type")) t = has_type t e.
Proof.
  unfold get, get_default, has_type.
  by destruct (lookup_key e (py "type")) as [[]|].
Qed.

Lemma has_type_excl e t t' : has_type t e = true → t ≠ t' → has_type t' e = false.
Proof.
  unfold has_type.
  destruct (lookup_key e (py "type")) as [[]|]; try done.
  intros ->%bool_decide_eq_true Hne. by apply bool_decide_eq_false.
Qed.

Lemma has_type_nonempty e t : has_type t e = true → truthy_seq e = true.
Proof. by destruct e. Qed.

Lemma last_of_type_cons t e evs :
  last_of_type t (e :: evs) =
    match last_of_type t evs with
    | Some e' => Some e'
    | None => if has_type t e then Some e else None
    end.
Proof.
  unfold last_of_type. simpl.
  destruct (has_type t e); [| by destruct (last _)].
  apply last_cons.
Qed.

Lemma last_of_type_has_type t evs e :
  last_of_type t evs = Some e → e ∈ evs ∧ has_type t e = true.
Proof.
  unfold last_of_type. intros H%last_Some_elem_of.
  apply list_elem_of_In, filter_In in H as [H ?].
  by apply list_elem_of_In in H.
Qed.

Lemma remembered_cons (before : option dict) t e evs :
  remembered (remembered before t [e]) t evs = remembered before t (e :: evs).
Proof.
  unfold remembered. rewrite (last_of_type_cons t e evs), (last_of_type_cons t e []).
  unfold last_of_type at 2. simpl.
  destruct (last_of_type t evs); [done |]. by destruct (has_type t e).
Qed.

(** One turn of the loop on a line that decodes. *)
Lemma scan_line_loaded st line event :
  startswith line (py "{") = true →
  json_loads line = Loaded event →
  scan_line json_loads st line =
    Return {| events := events st ++ [event];
              result_message := remembered (result_message st) (py "result") [event];
              last_assistant_message :=
                remembered (last_assistant_message st) (py "assistant") [event];
              system_message := remembered (system_message st) (py "system") [event] |}.
Proof.
  intros Hbrace Hload. unfold scan_line. rewrite Hbrace, Hload. simpl.
  unfold remembered. rewrite !last_of_type_cons, !eq_str_get_type.
  unfold last_of_type. simpl.
  destruct (has_type (py "result") event) eqn:Hr.
  { by rewrite (has_type_excl _ _ (py "assistant") Hr),
      (has_type_excl _ _ (py "system") Hr). }
  destruct (has_type (py "assistant") event) eqn:Ha.
  { by rewrite (has_type_excl _ _ (py "system") Ha). }
  by destruct (has_type (py "system") event).
Qed.

Lemma scan_fold lines : ∀ st,
  let braces := List.filter (λ line, startswith line (py "{")) lines in
  let evs := omap (decoded json_loads) braces in
  scan_from json_loads st lines =
    match omap (let_through json_loads) braces with
    | [] =>
        Return {| events := events st ++ evs;
                  result_message := remembered (result_message st) (py "result") evs;
                  last_assistant_message :=
                    remembered (last_assistant_message st) (py "assistant") evs;
                  system_message := remembered (system_message st) (py "system") evs |}
    | e :: _ => Raise e
    end.
Proof.
  induction lines as [|line lines IH]; intros st; simpl in *.
  { rewrite app_nil_r. by destruct st. }
  destruct (startswith line (py "{")) eqn:Hbrace; simpl.
  2: { unfold scan_line. rewrite Hbrace. simpl. apply IH. }
  destruct (json_loads line) as [event| |e] eqn:Hload.
  - assert (decoded json_loads line = Some event) as ->
      by (unfold decoded; by rewrite Hload).
    assert (let_through json_loads line = None) as ->
      by (unfold let_through; by rewrite Hload).
    rewrite (scan_line_loaded st line event Hbrace Hload), IH. simpl.
    change (list_omap str exn (let_through json_loads) ?l)
      with (omap (let_through json_loads) l).
    destruct (omap (let_through json_loads) _); [| done].
    by rewrite !remembered_cons, <- app_assoc.
  - assert (decoded json_loads line = None) as ->
      by (unfold decoded; by rewrite Hload).
    assert (let_through json_loads line = None) as ->
      by (unfold let_through; by rewrite Hload).
    unfold scan_line. rewrite Hbrace, Hload. simpl. apply IH.
  - assert (let_through json_loads line = Some e) as ->
      by (unfold let_through; by rewrite Hload).
    unfold scan_line. by rewrite Hbrace, Hload.
Qed.

(** The loop raises what [json.loads] first lets through; otherwise it
    leaves the decoded events and, for each kind, the last one. *)
Lemma scan_spec stdout :
  let evs := decoded_events json_loads stdout in
  scan json_loads (lines_of stdout) =
    match uncaught json_loads stdout with
    | [] =>
        Return {| events := evs;
                  result_message := last_of_type (py "result") evs;
                  last_assistant_message := last_of_type (py "assistant") evs;
                  system_message := last_of_type (py "system") evs |}
    | e :: _ => Raise e
    end.
Proof.
  unfold scan. rewrite scan_fold, lines_of_trimmed. simpl.
  unfold uncaught, decoded_events, brace_lines.
  destruct (omap (let_through json_loads) _); [| done].
  unfold remembered. by repeat destruct (last_of_type _ _).
Qed.

(** A decoded event comes from a line with ink, so stdout is not blank. *)
Lemma decoded_event_stdout e stdout :
  e ∈ decoded_events json_loads stdout → truthy_seq (strip stdout) = true.
Proof.
  unfold decoded_events, brace_lines, trimmed_nonblank_lines.
  intros (line & Hline & _)%list_elem_of_omap.
  apply list_elem_of_In, filter_In in Hline as [Hline _].
  apply filter_In in Hline as [Hline Hink].
  apply in_map_iff in Hline as (raw & <- & Hraw).
  apply truthy_seq_true, strip_ink. apply truthy_seq_true, strip_ink in Hink.
  apply splitlines_ink, Exists_exists. exists raw.
  split; [by apply list_elem_of_In | done].
Qed.

Lemma last_of_type_stdout t stdout e :
  last_of_type t (decoded_events json_loads stdout) = Some e →
  truthy_seq (strip stdout) = true.
Proof.
  intros [H _]%last_of_type_has_type. by eapply decoded_event_stdout.
Qed.

End ScanFacts.

(** ** How the stream parser fills the metadata *)

Section MetadataFacts.

Import QwenStreamJsonParser Spec.

Implicit Types (md : gmap str json) (k : str) (rm : dict) (sm : option dict).

(** Splits [k ∉ [k1; ...; kn]] into the disequalities it stands for. *)
Ltac split_keys H :=
  unfold late_keys, result_keys, system_keys in H; simpl in H;
  rewrite ?not_elem_of_cons in H;
  repeat match type of H with _ ∧ _ => let H' := fresh "Hk" in destruct H as [H' H] end.

Ltac keep_lookup := rewrite ?lookup_insert_ne by done.

Lemma stderr_entry_truthy stderr :
  stderr_entry stderr =
    if truthy_seq stderr && truthy_seq (strip stderr)
    then Some (JStr (strip stderr)) else None.
Proof. rewrite truthy_and_strip. unfold stderr_entry. by destruct (strip stderr). Qed.

Lemma with_stderr_lookup stderr md :
  md !! py "stderr" = None →
  with_stderr stderr md !! py "stderr" = stderr_entry stderr.
Proof.
  intros Hmd. rewrite stderr_entry_truthy. unfold with_stderr.
  destruct (_ && _); [apply lookup_insert_eq | done].
Qed.

Lemma with_stderr_lookup_ne stderr md k :
  k ≠ py "stderr" → with_stderr stderr md !! k = md !! k.
Proof. intros Hk. unfold with_stderr. destruct (_ && _); by keep_lookup. Qed.


Lemma harvest_system_lookup_ne sm md k :
  k ∉ system_keys → harvest_system sm md !! k = md !! k.
Proof.
  intros Hk. split_keys Hk. unfold harvest_system.
  repeat case_match; by keep_lookup.
Qed.


Lemma harvest_result_lookup_ne rm md k :
  k ∉ result_keys → harvest_result rm md !! k = md !! k.
Proof.
  intros Hk. split_keys Hk. unfold harvest_result.
  set (md1 := <[ py "duration_api_ms" := _ ]> _).
  assert (md1 !! k = md !! k) as H1 by (subst md1; by keep_lookup).
  clearbody md1.
  set (md2 := match get rm (py "usage") with JDict _ => _ | _ => md1 end).
  assert (md2 !! k = md !! k) as H2.
  { subst md2. destruct (get rm (py "usage")); by keep_lookup. }
  clearbody md2.
  set (md3 := match get rm (py "modelUsage") with JDict _ => _ | _ => md2 end).
  assert (md3 !! k = md !! k) as H3.
  { subst md3. destruct (get rm (py "modelUsage")) as [| | | | | |[|[] ?]];
      by keep_lookup. }
  clearbody md3.
  destruct (get rm (py "permission_denials")) as [| | | | |[|]|]; by keep_lookup.
Qed.


Lemma harvest_error_lookup_ne rm md k :
  k ≠ py "error" → (harvest_error rm md).2 !! k = md !! k.
Proof.
  intros Hk. unfold harvest_error. repeat case_match; simpl; by keep_lookup.
Qed.


(** The errors collected do not depend on the metadata, and are those the
    specification names. *)
Lemma harvest_error_errors rm md :
  (harvest_error rm md).1 = collected_errors rm.
Proof.
  unfold harvest_error, collected_errors, get, get_default.
  destruct (truthy _); [| done].
  by destruct (lookup_key rm (py "error")) as [[]|].
Qed.

End MetadataFacts.

(** ** The priority chain of the stream parser *)

Section ResponseFacts.

Import QwenStreamJsonParser Spec.

Implicit Types (md : gmap str json) (k : str) (rm la sm : option dict).

Lemma extract_block_part (acc : list str) block :
  extract_block acc block = acc ++ from_option (λ part, [part]) [] (block_part block).
Proof.
  unfold extract_block, block_part.
  destruct block; simpl; rewrite ?app_nil_r; try done.
  rewrite !eq_str_get_type. unfold get, get_default.
  destruct (has_type (py "text") d).
  { destruct (lookup_key d (py "text")) as [[]|]; simpl; rewrite ?app_nil_r; try done.
    destruct (strip s); simpl; by rewrite ?app_nil_r. }
  destruct (has_type (py "thinking") d); simpl; rewrite ?app_nil_r; try done.
  destruct (lookup_key d (py "thinking")) as [[]|]; simpl; rewrite ?app_nil_r; try done.
  destruct (strip s); simpl; by rewrite ?app_nil_r.
Qed.

(** Walking the blocks with an accumulator collects their parts in order. *)
Lemma fold_extract_block blocks : ∀ acc : list str,
  fold_left extract_block blocks acc = acc ++ omap block_part blocks.
Proof.
  induction blocks as [|b blocks IH]; intros acc; simpl.
  { by rewrite app_nil_r. }
  rewrite IH, extract_block_part, <- app_assoc.
  by destruct (block_part b).
Qed.

Lemma extract_assistant_text_spec (a : dict) :
  match _extract_assistant_text a with
  | Some text => text = assistant_text a
  | None => assistant_text a = []
  end.
Proof.
  unfold _extract_assistant_text, assistant_text, assistant_blocks, get, get_default.
  destruct (lookup_key a (py "message")) as [[]|]; simpl; try done.
  destruct (lookup_key d (py "content")) as [[]|]; simpl; try done.
  rewrite fold_extract_block. simpl.
  by destruct (omap block_part l).
Qed.

Lemma last_resort_spec stderr md :
  last_resort stderr md =
    match stderr_entry stderr with
    | Some _ => Return {| content := placeholder; metadata := with_stderr stderr md |}
    | None => Raise (ParserError no_result_message)
    end.
Proof.
  rewrite stderr_entry_truthy. unfold last_resort, with_stderr.
  by destruct (_ && _).
Qed.

(** The assistant fallback, as the specification words it. *)
Lemma after_result_spec la errors stderr md :
  after_result la errors stderr md =
    match from_option assistant_text [] la with
    | [] => errors_branch errors stderr md
    | text => Return {| content := text; metadata := with_stderr stderr md |}
    end.
Proof.
  unfold after_result. destruct la as [a|]; simpl; [| done].
  destruct a as [|entry a]; simpl; [done |].
  pose proof (extract_assistant_text_spec (entry :: a)) as H.
  destruct (_extract_assistant_text (entry :: a)) as [text|].
  - rewrite <- H. by destruct text.
  - by rewrite H.
Qed.

Lemma result_text_get (r : dict) :
  result_text r =
    match get r (py "result") with
    | JStr s => if truthy_seq (strip s) then Some (strip s) else None
    | _ => None
    end.
Proof.
  unfold result_text, get, get_default.
  destruct (lookup_key r (py "result")) as [[]|]; simpl; try done.
  by destruct (strip s).
Qed.

(** The whole content selection, in priority order. *)
Lemma respond_spec md rm la sm stderr :
  respond md rm la sm stderr =
    let md' := harvested rm sm md in
    match rm ≫= result_text with
    | Some text => Return {| content := text; metadata := with_stderr stderr md' |}
    | None =>
        match from_option assistant_text [] la with
        | [] => errors_branch (from_option collected_errors [] rm) stderr md'
        | text => Return {| content := text; metadata := with_stderr stderr md' |}
        end
    end.
Proof.
  unfold respond, harvested. destruct rm as [r|]; simpl;
    [| by rewrite after_result_spec].
  destruct r as [|entry r]; simpl; [by rewrite after_result_spec |].
  set (r' := entry :: r). rewrite (result_text_get r').
  pose proof (harvest_error_errors r'
                (harvest_result r' (harvest_system sm md))) as Herr.
  destruct (harvest_error r' _) as [errors md']. simpl in *. subst errors.
  rewrite after_result_spec.
  destruct (get r' (py "result")); try done.
  by destruct (truthy_seq (strip s)).
Qed.

(** Every returned response carries the harvested metadata and the stderr
    entry, whichever branch chose the content. *)
Lemma respond_metadata md rm la sm stderr r :
  respond md rm la sm stderr = Return r →
  metadata r = with_stderr stderr (harvested rm sm md).
Proof.
  rewrite respond_spec. simpl.
  destruct (rm ≫= result_text); [by intros [= <-] |].
  destruct (from_option assistant_text [] la); [| by intros [= <-]].
  unfold errors_branch. destruct (truthy_seq _).
  - destruct (join_items _ _); [by intros [= <-] | done].
  - rewrite last_resort_spec. destruct (stderr_entry stderr); [by intros [= <-] | done].
Qed.

Lemma harvested_lookup_early rm sm md k :
  k ∉ late_keys → harvested rm sm md !! k = harvest_system sm md !! k.
Proof.
  intros Hk. unfold late_keys in Hk.
  apply not_elem_of_app in Hk as [Hres Hk].
  apply not_elem_of_cons in Hk as [Herr _].
  unfold harvested. destruct rm as [r|]; [| done].
  destruct (truthy_seq r); [| done].
  by rewrite harvest_error_lookup_ne, harvest_result_lookup_ne.
Qed.

Lemma harvested_lookup_stderr rm sm md :
  md !! py "stderr" = None → harvested rm sm md !! py "stderr" = None.
Proof.
  intros Hmd. unfold harvested.
  assert (harvest_system sm md !! py "stderr" = None) as Hsys.
  { rewrite harvest_system_lookup_ne; [done |].
    unfold system_keys. rewrite !not_elem_of_cons. repeat split; try done.
    apply not_elem_of_nil. }
  destruct rm as [r|]; [| done].
  destruct (truthy_seq r); [| done].
  rewrite harvest_error_lookup_ne, harvest_result_lookup_ne; try done.
  unfold result_keys. rewrite !not_elem_of_cons. repeat split; try done.
  apply not_elem_of_nil.
Qed.



End ResponseFacts.

(** ** The stream parser: the claims *)

Section StreamParser.

Import QwenStreamJsonParser Spec.

Variable json_loads : str → loaded.

Implicit Types (stdout stderr : str) (r : ParsedCLIResponse).

(** On a non-blank stdout whose brace lines [json.loads] decodes or
    rejects with [json.JSONDecodeError], [parse] is the priority chain run
    on the decoded events and the last event of each kind. *)
Lemma parse_nonblank stdout stderr :
  truthy_seq (strip stdout) = true →
  uncaught json_loads stdout = [] →
  parse json_loads stdout stderr =
    let evs := decoded_events json_loads stdout in
    respond {[ py "raw_events" := JList (JDict <$> evs) ]}
      (last_of_type (py "result") evs) (last_of_type (py "assistant") evs)
      (last_of_type (py "system") evs) stderr.
Proof.
  intros Hink Hcaught. unfold parse. rewrite Hink. simpl.
  by rewrite scan_spec, Hcaught.
Qed.

(** On a non-blank stdout, [parse] raises the first exception that
    [json.loads] lets through on a brace line. *)
Lemma parse_uncaught stdout stderr (e : exn) (rest : list exn) :
  truthy_seq (strip stdout) = true →
  uncaught json_loads stdout = e :: rest →
  parse json_loads stdout stderr = Raise e.
Proof.
  intros Hink Hraised. unfold parse. rewrite Hink. simpl.
  by rewrite scan_spec, Hraised.
Qed.

Lemma parse_Return_nonblank stdout stderr r :
  parse json_loads stdout stderr = Return r → truthy_seq (strip stdout) = true.
Proof. unfold parse. by destruct (truthy_seq (strip stdout)). Qed.

Lemma parse_Return_caught stdout stderr r :
  parse json_loads stdout stderr = Return r → uncaught json_loads stdout = [].
Proof.
  unfold parse. destruct (truthy_seq (strip stdout)); simpl; [| done].
  rewrite scan_spec. by destruct (uncaught json_loads stdout).
Qed.

(** A returned response is the one the priority chain gave. *)
Lemma parse_Return_respond stdout stderr r :
  parse json_loads stdout stderr = Return r →
  respond {[ py "raw_events" := JList (JDict <$> decoded_events json_loads stdout) ]}
    (last_of_type (py "result") (decoded_events json_loads stdout))
    (last_of_type (py "assistant") (decoded_events json_loads stdout))
    (last_of_type (py "system") (decoded_events json_loads stdout)) stderr
  = Return r.
Proof.
  intros Hparse.
  rewrite parse_nonblank in Hparse;
    [done | by eapply parse_Return_nonblank | by eapply parse_Return_caught].
Qed.

(** C1, amended: on a stdout whose brace lines [json.loads] decodes or
    rejects with [json.JSONDecodeError], when the last decoded event of
    type "result" carries a string [result] field whose trim is not empty,
    the response has that trimmed string as content, the trimmed stderr
    sits under the metadata key "stderr" exactly when it is not empty, and
    the outcome is the same whatever assistant message was remembered: no
    later branch takes part. *)
Theorem result_branch_wins stdout stderr (res : dict) (s : str) :
  uncaught json_loads stdout = [] →
  last_of_type (py "result") (decoded_events json_loads stdout) = Some res →
  lookup_key res (py "result") = Some (JStr s) →
  strip s ≠ [] →
  ∃ md,
    parse json_loads stdout stderr =
      Return {| content := strip s; metadata := md |}
    ∧ md !! py "stderr" = stderr_entry stderr
    ∧ ∀ la,
        respond
          {[ py "raw_events" := JList (JDict <$> decoded_events json_loads stdout) ]}
          (Some res) la
          (last_of_type (py "system") (decoded_events json_loads stdout)) stderr
        = Return {| content := strip s; metadata := md |}.
Proof.
  intros Hcaught Hres Hfield Hink.
  assert (result_text res = Some (strip s)) as Htext.
  { unfold result_text. rewrite Hfield. by destruct (strip s). }
  eexists. split; [| split].
  - rewrite parse_nonblank by first [by eapply last_of_type_stdout | done].
    simpl. rewrite respond_spec, Hres. simpl. by rewrite Htext.
  - apply with_stderr_lookup, harvested_lookup_stderr.
    by apply lookup_singleton_ne.
  - intros la. rewrite respond_spec. simpl. by rewrite Htext.
Qed.

(** C2: every returned response holds under "raw_events" exactly the
    objects decoded, in line order and with repetitions, from the trimmed
    non-blank lines that start with an opening brace and decode. *)
Theorem raw_events_decoded stdout stderr r :
  parse json_loads stdout stderr = Return r →
  metadata r !! py "raw_events" =
    Some (JList (JDict <$> decoded_events json_loads stdout)).
Proof.
  intros Hparse.
  apply parse_Return_respond in Hparse.
  apply respond_metadata in Hparse as ->.
  rewrite with_stderr_lookup_ne by done.
  rewrite harvested_lookup_early, harvest_system_lookup_ne.
  - apply lookup_singleton_eq.
  - unfold system_keys. rewrite !not_elem_of_cons. repeat split; try done.
    apply not_elem_of_nil.
  - unfold late_keys, result_keys. simpl.
    rewrite !not_elem_of_cons. repeat split; try done. apply not_elem_of_nil.
Qed.

(** C3, amended: on a stdout whose brace lines [json.loads] decodes or
    rejects with [json.JSONDecodeError], when no result event yields
    content and an assistant event was decoded, the content is taken from the last assistant event: the
    trimmed text of its "text" blocks and the bracketed trimmed text of
    its "thinking" blocks, in block order, joined by a blank line; when
    that text is not empty it is the content, with the stderr entry. *)
Theorem assistant_fallback stdout stderr (a : dict) :
  uncaught json_loads stdout = [] →
  last_of_type (py "result") (decoded_events json_loads stdout) ≫= result_text = None →
  last_of_type (py "assistant") (decoded_events json_loads stdout) = Some a →
  assistant_text a ≠ [] →
  ∃ md,
    parse json_loads stdout stderr =
      Return {| content := assistant_text a; metadata := md |}
    ∧ md !! py "stderr" = stderr_entry stderr.
Proof.
  intros Hcaught Hres Ha Htext.
  rewrite parse_nonblank by first [by eapply last_of_type_stdout | done].
  simpl. rewrite respond_spec, Hres, Ha. simpl.
  destruct (assistant_text a) as [|c text]; [done |].
  eexists. split; [reflexivity |].
  apply with_stderr_lookup, harvested_lookup_stderr.
  by apply lookup_singleton_ne.
Qed.


(** C7, amended: on a non-blank stdout whose brace lines [json.loads]
    decodes or rejects with [json.JSONDecodeError] and that yields no
    result content, no assistant content and no collected error, a stderr
    with a non-empty trim gives the placeholder content with the trimmed
    stderr under "stderr", and a blank stderr raises the ParserError that
    names the missing result or assistant message. *)
Theorem stderr_last_resort stdout stderr :
  uncaught json_loads stdout = [] →
  strip stdout ≠ [] →
  last_of_type (py "result") (decoded_events json_loads stdout) ≫= result_text = None →
  from_option assistant_text []
    (last_of_type (py "assistant") (decoded_events json_loads stdout)) = [] →
  from_option collected_errors []
    (last_of_type (py "result") (decoded_events json_loads stdout)) = [] →
  match strip stderr with
  | [] =>
      parse json_loads stdout stderr = Raise (ParserError no_result_message)
      ∧ contains no_result_message (py "did not contain a result or assistant") = true
  | text =>
      ∃ md,
        parse json_loads stdout stderr =
          Return {| content := placeholder; metadata := md |}
        ∧ md !! py "stderr" = Some (JStr text)
  end.
Proof.
  intros Hcaught Hink Hres Ha Herr.
  rewrite parse_nonblank by first [by apply truthy_seq_true | done]. simpl.
  rewrite respond_spec, Hres, Ha, Herr. simpl.
  unfold errors_branch. simpl. rewrite last_resort_spec.
  set (md := harvested _ _ _).
  assert (with_stderr stderr md !! py "stderr" = stderr_entry stderr) as Hlook.
  { apply with_stderr_lookup, harvested_lookup_stderr.
    by apply lookup_singleton_ne. }
  unfold stderr_entry in *.
  destruct (strip stderr) as [|c text]; [by split |].
  by eexists.
Qed.

(** C8: a stdout whose trim is empty raises the ParserError about empty
    stdout, whatever stderr holds and whatever the decoder would do. *)
Theorem empty_stdout_fails stdout stderr :
  strip stdout = [] →
  parse json_loads stdout stderr = Raise (ParserError empty_stdout_message)
  ∧ contains empty_stdout_message (py "empty stdout") = true.
Proof.
  intros Hblank. unfold parse. rewrite Hblank. by split.
Qed.

(** C10: in a returned response, when a system event was decoded, the
    metadata holds "session_id" and "model" with the fields of the last
    system event, null where a field is missing, and holds "cli_version"
    exactly when that event has the key "qwen_code_version". *)
Theorem system_metadata stdout stderr r (sysm : dict) :
  parse json_loads stdout stderr = Return r →
  last_of_type (py "system") (decoded_events json_loads stdout) = Some sysm →
  metadata r !! py "session_id" =
    Some (default JNull (lookup_key sysm (py "session_id")))
  ∧ metadata r !! py "model" = Some (default JNull (lookup_key sysm (py "model")))
  ∧ metadata r !! py "cli_version" = lookup_key sysm (py "qwen_code_version").
Proof.
  intros Hparse Hsys.
  apply parse_Return_respond in Hparse.
  apply respond_metadata in Hparse as ->.
  assert (∀ k, k ∈ system_keys →
            with_stderr stderr
              (harvested
                 (last_of_type (py "result") (decoded_events json_loads stdout))
                 (last_of_type (py "system") (decoded_events json_loads stdout))
                 {[ py "raw_events" :=
                      JList (JDict <$> decoded_events json_loads stdout) ]}) !! k
            = harvest_system (Some sysm)
                {[ py "raw_events" :=
                     JList (JDict <$> decoded_events json_loads stdout) ]} !! k)
    as Hearly.
  { intros k Hk. unfold system_keys in Hk. rewrite !elem_of_cons in Hk.
    rewrite with_stderr_lookup_ne, harvested_lookup_early, Hsys; [done | |].
    - unfold late_keys, result_keys. simpl. rewrite !not_elem_of_cons.
      destruct Hk as [-> | [-> | [-> | Hk]]];
        [| | | by apply elem_of_nil in Hk];
        repeat split; try done; apply not_elem_of_nil.
    - destruct Hk as [-> | [-> | [-> | Hk]]]; try done.
      by apply elem_of_nil in Hk. }
  apply last_of_type_has_type in Hsys as [_ Htype].
  apply has_type_nonempty in Htype.
  rewrite !Hearly by (unfold system_keys; rewrite !elem_of_cons; auto).
  unfold harvest_system, has_key, get, get_default. rewrite Htype.
  destruct (lookup_key sysm (py "qwen_code_version")) as [v|] eqn:Hver.
  - rewrite bool_decide_eq_true_2 by eauto.
    repeat split;
      repeat first [rewrite lookup_insert_eq | rewrite lookup_insert_ne by done];
      done.
  - rewrite bool_decide_eq_false_2 by (by intros [? ?]).
    repeat split;
      repeat first [rewrite lookup_insert_eq | rewrite lookup_insert_ne by done
                   | rewrite lookup_singleton_ne by done];
      done.
Qed.

End StreamParser.

(** ** The plaintext parser and the recovery hook: the claims *)

Section Copilot.

Import Spec.

Implicit Types (stdout stderr : str).

(** C6: a stdout with a non-empty trim gives that trim as content, with
    the trimmed stderr under "stderr" exactly when it is not empty and
    nothing else in the metadata; a blank stdout with a non-blank stderr
    gives the placeholder and the trimmed stderr under "stderr"; two blank
    texts raise ParserError. *)
Theorem plaintext_parse_cases stdout stderr :
  (strip stdout ≠ [] →
   ∃ md,
     CopilotPlaintextParser.parse stdout stderr =
       Return {| content := strip stdout; metadata := md |}
     ∧ md !! py "stderr" = stderr_entry stderr
     ∧ ∀ k, k ≠ py "stderr" → md !! k = None)
  ∧ (strip stdout = [] → strip stderr ≠ [] →
     CopilotPlaintextParser.parse stdout stderr =
       Return {| content := CopilotPlaintextParser.placeholder;
                 metadata := {[ py "stderr" := JStr (strip stderr) ]} |})
  ∧ (strip stdout = [] → strip stderr = [] →
     CopilotPlaintextParser.parse stdout stderr =
       Raise (ParserError (py "Copilot CLI returned empty output"))).
Proof.
  unfold CopilotPlaintextParser.parse, stderr_entry.
  repeat split.
  - intros Hout%truthy_seq_true. rewrite Hout. simpl.
    eexists. split; [reflexivity |].
    destruct (strip stderr) as [|c text]; simpl.
    + split; [done | intros k _; apply lookup_empty].
    + split; [apply lookup_insert_eq |].
      intros k Hk. by rewrite lookup_insert_ne.
  - intros -> Herr%truthy_seq_true. simpl. by rewrite Herr.
  - by intros -> ->.
Qed.

Lemma combined_join stdout stderr :
  strip (join newline (List.filter truthy_seq [stdout; stderr])) =
    combined_output stdout stderr.
Proof. unfold combined_output. by destruct stdout, stderr. Qed.

(** C5: with [combined] the trimmed newline-join of the non-empty ones
    among stdout and stderr, the hook returns nothing exactly when
    [combined] is empty; a returned result has [combined] as parsed
    content and records [cli_error_recovered = true] and the return code. *)
Theorem recovery_salvages (self : CopilotAgent.t) (rc : Z) stdout stderr
    (cmd : list str) (dur : spec_float) (file : option str) :
  (CopilotAgent._recover_from_error self rc stdout stderr cmd dur file = None
   ↔ combined_output stdout stderr = [])
  ∧ ∀ res,
      CopilotAgent._recover_from_error self rc stdout stderr cmd dur file = Some res →
      content (parsed res) = combined_output stdout stderr
      ∧ metadata (parsed res) !! py "cli_error_recovered" = Some (JBool true)
      ∧ metadata (parsed res) !! py "cli_returncode" = Some (JInt rc)
      ∧ returncode res = rc.
Proof.
  unfold CopilotAgent._recover_from_error. rewrite combined_join.
  destruct (combined_output stdout stderr) as [|c text]; simpl.
  - split; [done | by intros res].
  - split; [by split |].
    intros res [= <-]. simpl. by repeat split.
Qed.

(** C9: a result of the recovery path names the agent's configured parser,
    and stays the same when that parser's parse function is replaced by
    any other: the function is not called. *)
Theorem recovery_reports_parser (self : CopilotAgent.t) (rc : Z) stdout stderr
    (cmd : list str) (dur : spec_float) (file : option str) (res : AgentOutput) :
  CopilotAgent._recover_from_error self rc stdout stderr cmd dur file = Some res →
  parser_name res = Base.name (CopilotAgent._parser self)
  ∧ ∀ parse',
      CopilotAgent._recover_from_error
        {| CopilotAgent._parser :=
             {| Base.name := Base.name (CopilotAgent._parser self);
                Base.parse := parse' |} |}
        rc stdout stderr cmd dur file = Some res.
Proof.
  unfold CopilotAgent._recover_from_error.
  destruct (truthy_seq _); simpl; [| done].
  intros [= <-]. by split.
Qed.

End Copilot.

(** ** The claims on the sample streams *)

Section Witnesses.

Import QwenStreamJsonParser Spec Samples.

Lemma result_branch_wins_witness :
  ∃ md,
    parse loads full_stdout warning =
      Return {| content := py "Done."; metadata := md |}
    ∧ md !! py "stderr" = Some (JStr (py "warning: slow network")).
Proof.
  destruct (result_branch_wins loads full_stdout warning result_event (py " Done. "))
    as (md & Hparse & Herr & _).
  - vm_compute. reflexivity.
  - vm_compute. reflexivity.
  - vm_compute. reflexivity.
  - vm_compute. discriminate.
  - exists md. split; [exact Hparse | exact Herr].
Defined.

Lemma raw_events_decoded_witness :
  ∃ r,
    parse loads full_stdout warning = Return r
    ∧ metadata r !! py "raw_events" =
        Some (JList (JDict <$> [system_event; system_event; assistant_event;
                                draft_event; result_event])).
Proof.
  assert (∃ r, parse loads full_stdout warning = Return r) as [r Hr].
  { vm_compute. eexists. reflexivity. }
  exists r. split; [exact Hr |].
  rewrite (raw_events_decoded loads full_stdout warning r Hr).
  vm_compute. reflexivity.
Defined.

Lemma assistant_fallback_witness :
  ∃ md,
    parse loads cut_stdout [] =
      Return {| content := py "[Thinking: Let me see]" ++ newline ++ newline
                           ++ py "The answer is 42.";
                metadata := md |}
    ∧ md !! py "stderr" = None.
Proof.
  destruct (assistant_fallback loads cut_stdout [] assistant_event)
    as (md & Hparse & Herr).
  - vm_compute. reflexivity.
  - vm_compute. reflexivity.
  - vm_compute. reflexivity.
  - vm_compute. discriminate.
  - exists md. split; [exact Hparse | exact Herr].
Defined.


Lemma stderr_last_resort_witness :
  (∃ md,
     parse loads bare_stdout warning =
       Return {| content := placeholder; metadata := md |}
     ∧ md !! py "stderr" = Some (JStr (py "warning: slow network")))
  ∧ parse loads bare_stdout (py "   ") = Raise (ParserError no_result_message).
Proof.
  split.
  - apply (stderr_last_resort loads bare_stdout warning).
    + vm_compute. reflexivity.
    + vm_compute. discriminate.
    + vm_compute. reflexivity.
    + vm_compute. reflexivity.
    + vm_compute. reflexivity.
  - apply (stderr_last_resort loads bare_stdout (py "   ")).
    + vm_compute. reflexivity.
    + vm_compute. discriminate.
    + vm_compute. reflexivity.
    + vm_compute. reflexivity.
    + vm_compute. reflexivity.
Defined.

Lemma empty_stdout_fails_witness :
  parse loads (py "   " ++ newline ++ py "  ") warning =
    Raise (ParserError empty_stdout_message).
Proof.
  apply (empty_stdout_fails loads (py "   " ++ newline ++ py "  ") warning).
  vm_compute. reflexivity.
Defined.

Lemma system_metadata_witness :
  ∃ r,
    parse loads full_stdout warning = Return r
    ∧ metadata r !! py "session_id" = Some (JStr (py "sess-1"))
    ∧ metadata r !! py "model" = Some (JStr (py "qwen-coder"))
    ∧ metadata r !! py "cli_version" = None.
Proof.
  assert (∃ r, parse loads full_stdout warning = Return r) as [r Hr].
  { vm_compute. eexists. reflexivity. }
  exists r. split; [exact Hr |].
  apply (system_metadata loads full_stdout warning r system_event Hr).
  vm_compute. reflexivity.
Defined.

Lemma plaintext_parse_cases_witness :
  (∃ md,
     CopilotPlaintextParser.parse (py " answer ") warning =
       Return {| content := py "answer"; metadata := md |}
     ∧ md !! py "stderr" = Some (JStr (py "warning: slow network")))
  ∧ CopilotPlaintextParser.parse (py "  ") warning =
      Return {| content := CopilotPlaintextParser.placeholder;
                metadata := {[ py "stderr" := JStr (py "warning: slow network") ]} |}
  ∧ CopilotPlaintextParser.parse (py "  ") newline =
      Raise (ParserError (py "Copilot CLI returned empty output")).
Proof.
  split; [| split].
  - destruct (proj1 (plaintext_parse_cases (py " answer ") warning))
      as (md & Hparse & Herr & _).
    + vm_compute. discriminate.
    + exists md. split; [exact Hparse | exact Herr].
  - apply (proj1 (proj2 (plaintext_parse_cases (py "  ") warning))).
    + vm_compute. reflexivity.
    + vm_compute. discriminate.
  - apply (proj2 (proj2 (plaintext_parse_cases (py "  ") newline))).
    + vm_compute. reflexivity.
    + vm_compute. reflexivity.
Defined.

Lemma recovery_reports_parser_witness :
  ∃ res,
    CopilotAgent._recover_from_error
      {| CopilotAgent._parser := CopilotPlaintextParser.parser |}
      2 [] warning [py "copilot"; py "--silent"] (S754_zero false) None = Some res
    ∧ parser_name res = py "copilot_plaintext".
Proof.
  assert (∃ res,
            CopilotAgent._recover_from_error
              {| CopilotAgent._parser := CopilotPlaintextParser.parser |}
              2 [] warning [py "copilot"; py "--silent"] (S754_zero false) None
            = Some res) as [res Hres].
  { vm_compute. eexists. reflexivity. }
  exists res. split; [exact Hres |].
  apply (recovery_reports_parser _ _ _ _ _ _ _ res Hres).
Defined.

End Witnesses.

(** * Further properties *)

(** ** Trimming twice, and trimming a concatenation *)

Section TrimFacts.

Implicit Types (s : str) (c : N).

Local Abbreviation ink := (Exists (λ c, isspace c = false)).

Lemma lstrip_head s c : head (lstrip s) = Some c → isspace c = false.
Proof.
  induction s as [|d s IH]; simpl; [done |].
  destruct (isspace d) eqn:Hd; [done |].
  simpl. by intros [= <-].
Qed.

Lemma lstrip_fixed s : (∀ c, head s = Some c → isspace c = false) → lstrip s = s.
Proof.
  destruct s as [|d s]; simpl; [done |].
  intros H. by rewrite (H d).
Qed.

Lemma lstrip_idem s : lstrip (lstrip s) = lstrip s.
Proof. apply lstrip_fixed, lstrip_head. Qed.

Lemma lstrip_suffix s : ∃ p, s = p ++ lstrip s.
Proof.
  induction s as [|d s [p IH]]; simpl; [by exists [] |].
  destruct (isspace d); [| by exists []].
  exists (d :: p). simpl. by rewrite <- IH.
Qed.

Lemma rstrip_prefix s : ∃ q, s = rstrip s ++ q.
Proof.
  unfold rstrip. destruct (lstrip_suffix (rev s)) as [p Hp].
  exists (rev p). rewrite <- rev_app_distr, <- Hp. by rewrite rev_involutive.
Qed.

Lemma rstrip_head s c :
  (∀ d, head s = Some d → isspace d = false) →
  head (rstrip s) = Some c → isspace c = false.
Proof.
  intros Hs. destruct (rstrip_prefix s) as [q Hq].
  destruct (rstrip s) as [|d t]; simpl; [done |].
  intros [= <-]. apply Hs. by rewrite Hq.
Qed.

Lemma rstrip_idem s : rstrip (rstrip s) = rstrip s.
Proof. unfold rstrip. by rewrite rev_involutive, lstrip_idem. Qed.

(** [s.strip().strip() == s.strip()]. *)
Lemma strip_idem s : strip (strip s) = strip s.
Proof.
  unfold strip. rewrite (lstrip_fixed (rstrip (lstrip s))).
  - apply rstrip_idem.
  - intros c. apply rstrip_head. intros d. apply lstrip_head.
Qed.

Lemma strip_nil_iff s : strip s = [] ↔ ¬ ink s.
Proof.
  split.
  - intros H Hink%strip_ink. done.
  - intros H. destruct (strip s) as [|c t] eqn:E; [done |].
    exfalso. apply H, strip_ink. by rewrite E.
Qed.

(** A concatenation trims to nothing exactly when both parts do. *)
Lemma strip_app_nil s1 s2 :
  strip (s1 ++ s2) = [] ↔ strip s1 = [] ∧ strip s2 = [].
Proof.
  rewrite !strip_nil_iff, Exists_app. tauto.
Qed.

End TrimFacts.

(** ** The metadata written from the result event *)

Section ResultMetadataFacts.

Import QwenStreamJsonParser Spec.

Implicit Types (md M : gmap str json) (k : str) (rm : dict).

Lemma through_denials rm M k :
  k ≠ py "permission_denials" →
  match get rm (py "permission_denials") with
  | JList (_ :: _) =>
      <[ py "permission_denials" := get rm (py "permission_denials") ]> M
  | _ => M
  end !! k = M !! k.
Proof.
  intros Hk.
  destruct (get rm (py "permission_denials")) as [| | | | |[|]|];
    by rewrite ?lookup_insert_ne.
Qed.

Lemma at_denials rm M :
  match get rm (py "permission_denials") with
  | JList (_ :: _) =>
      <[ py "permission_denials" := get rm (py "permission_denials") ]> M
  | _ => M
  end !! py "permission_denials" =
    match get rm (py "permission_denials") with
    | JList (x :: l) => Some (JList (x :: l))
    | _ => M !! py "permission_denials"
    end.
Proof.
  destruct (get rm (py "permission_denials")) as [| | | | |[|]|];
    by rewrite ?lookup_insert_eq.
Qed.

Lemma through_models rm M k :
  k ≠ py "model_usage" → k ≠ py "model_used" →
  match get rm (py "modelUsage") with
  | JDict ((first_model, _) :: _) =>
      <[ py "model_used" := JStr first_model ]>
        (<[ py "model_usage" := get rm (py "modelUsage") ]> M)
  | _ => M
  end !! k = M !! k.
Proof.
  intros Hk Hk'.
  destruct (get rm (py "modelUsage")) as [| | | | | |[|[] ?]];
    by rewrite ?lookup_insert_ne.
Qed.

Lemma at_models rm M :
  let M' :=
    match get rm (py "modelUsage") with
    | JDict ((first_model, _) :: _) =>
        <[ py "model_used" := JStr first_model ]>
          (<[ py "model_usage" := get rm (py "modelUsage") ]> M)
    | _ => M
    end in
  M' !! py "model_usage" =
    match get rm (py "modelUsage") with
    | JDict (entry :: d) => Some (JDict (entry :: d))
    | _ => M !! py "model_usage"
    end
  ∧ M' !! py "model_used" =
    match get rm (py "modelUsage") with
    | JDict ((first_model, _) :: _) => Some (JStr first_model)
    | _ => M !! py "model_used"
    end.
Proof.
  simpl. destruct (get rm (py "modelUsage")) as [| | | | | |[|[] ?]]; try done.
  split; [| apply lookup_insert_eq].
  rewrite lookup_insert_ne by done. apply lookup_insert_eq.
Qed.

Lemma through_usage rm M k :
  k ≠ py "usage" →
  match get rm (py "usage") with
  | JDict _ => <[ py "usage" := get rm (py "usage") ]> M
  | _ => M
  end !! k = M !! k.
Proof.
  intros Hk. destruct (get rm (py "usage")); by rewrite ?lookup_insert_ne.
Qed.

Lemma at_usage rm M :
  match get rm (py "usage") with
  | JDict _ => <[ py "usage" := get rm (py "usage") ]> M
  | _ => M
  end !! py "usage" =
    match get rm (py "usage") with
    | JDict d => Some (JDict d)
    | _ => M !! py "usage"
    end.
Proof. destruct (get rm (py "usage")); by rewrite ?lookup_insert_eq. Qed.

(** The four entries written for every result event. *)
Lemma harvest_result_counters rm md :
  harvest_result rm md !! py "is_error" =
    Some (get_default rm (py "is_error") (JBool false))
  ∧ harvest_result rm md !! py "num_turns" = Some (get rm (py "num_turns"))
  ∧ harvest_result rm md !! py "duration_ms" = Some (get rm (py "duration_ms"))
  ∧ harvest_result rm md !! py "duration_api_ms" =
      Some (get rm (py "duration_api_ms")).
Proof.
  unfold harvest_result. cbv zeta.
  repeat split;
    (etrans; [by apply through_denials |]);
    (etrans; [by apply through_models |]);
    (etrans; [by apply through_usage |]);
    repeat first [rewrite lookup_insert_eq | rewrite lookup_insert_ne by done];
    done.
Qed.

Lemma harvest_result_usage rm md :
  md !! py "usage" = None →
  harvest_result rm md !! py "usage" =
    match get rm (py "usage") with
    | JDict d => Some (JDict d)
    | _ => None
    end.
Proof.
  intros Hmd. unfold harvest_result. cbv zeta.
  etrans; [by apply through_denials |].
  etrans; [by apply through_models |].
  rewrite at_usage, !lookup_insert_ne, Hmd by done.
  by destruct (get rm (py "usage")).
Qed.

Lemma harvest_result_models rm md :
  md !! py "model_usage" = None →
  md !! py "model_used" = None →
  harvest_result rm md !! py "model_usage" =
    match get rm (py "modelUsage") with
    | JDict (entry :: d) => Some (JDict (entry :: d))
    | _ => None
    end
  ∧ harvest_result rm md !! py "model_used" =
    match get rm (py "modelUsage") with
    | JDict ((first_model, _) :: _) => Some (JStr first_model)
    | _ => None
    end.
Proof.
  intros Hmd Hmd'. unfold harvest_result. cbv zeta.
  split; (etrans; [by apply through_denials |]).
  - etrans; [apply at_models |].
    rewrite through_usage, !lookup_insert_ne, Hmd by done.
    by destruct (get rm (py "modelUsage")) as [| | | | | |[|[] ?]].
  - etrans; [apply at_models |].
    rewrite through_usage, !lookup_insert_ne, Hmd' by done.
    by destruct (get rm (py "modelUsage")) as [| | | | | |[|[] ?]].
Qed.

Lemma harvest_result_denials rm md :
  md !! py "permission_denials" = None →
  harvest_result rm md !! py "permission_denials" =
    match get rm (py "permission_denials") with
    | JList (x :: l) => Some (JList (x :: l))
    | _ => None
    end.
Proof.
  intros Hmd. unfold harvest_result. cbv zeta.
  rewrite at_denials, through_models, through_usage, !lookup_insert_ne, Hmd by done.
  by destruct (get rm (py "permission_denials")) as [| | | | |[|]|].
Qed.

Lemma harvest_error_lookup rm md :
  md !! py "error" = None →
  (harvest_error rm md).2 !! py "error" =
    if truthy (get rm (py "is_error")) then
      match get rm (py "error") with
      | JDict info => Some (JDict info)
      | _ => None
      end
    else None.
Proof.
  intros Hmd. unfold harvest_error.
  destruct (truthy _); [| done].
  destruct (get rm (py "error")); simpl; try done.
  apply lookup_insert_eq.
Qed.

End ResultMetadataFacts.

(** ** The stream parser: every returned response *)

Section StreamResponses.

Import QwenStreamJsonParser Spec.

Variable json_loads : str → loaded.

Implicit Types (stdout stderr : str) (r : ParsedCLIResponse) (k : str).

Ltac not_a_key :=
  unfold late_keys, result_keys, system_keys; simpl;
  rewrite !not_elem_of_cons; repeat split; try done; apply not_elem_of_nil.

(** The metadata of a returned response: the stderr entry on top of what
    the last system and result events gave. *)
Lemma parse_metadata stdout stderr r :
  parse json_loads stdout stderr = Return r →
  metadata r =
    with_stderr stderr
      (harvested
         (last_of_type (py "result") (decoded_events json_loads stdout))
         (last_of_type (py "system") (decoded_events json_loads stdout))
         {[ py "raw_events" := JList (JDict <$> decoded_events json_loads stdout) ]}).
Proof.
  intros Hparse.
  apply parse_Return_respond in Hparse.
  by apply respond_metadata in Hparse.
Qed.

Lemma last_of_type_truthy t stdout (e : dict) :
  last_of_type t (decoded_events json_loads stdout) = Some e →
  truthy_seq e = true.
Proof.
  intros [_ Htype]%last_of_type_has_type. by eapply has_type_nonempty.
Qed.

(** Below the stderr entry and the error entry sits what the block of
    lines 64-81 wrote on top of the system entries. *)
Lemma result_metadata stdout stderr r (res : dict) k :
  parse json_loads stdout stderr = Return r →
  last_of_type (py "result") (decoded_events json_loads stdout) = Some res →
  k ≠ py "stderr" → k ≠ py "error" →
  metadata r !! k =
    harvest_result res
      (harvest_system
         (last_of_type (py "system") (decoded_events json_loads stdout))
         {[ py "raw_events" := JList (JDict <$> decoded_events json_loads stdout) ]})
    !! k.
Proof.
  intros Hparse Hres Hk Hk'.
  rewrite (parse_metadata _ _ _ Hparse), Hres.
  rewrite with_stderr_lookup_ne by done.
  unfold harvested. rewrite (last_of_type_truthy _ _ _ Hres).
  by rewrite harvest_error_lookup_ne.
Qed.

Lemma system_seed_lookup (sm : option dict) (evs : list dict) k :
  k ∉ system_keys → k ≠ py "raw_events" →
  harvest_system sm ({[ py "raw_events" := JList (JDict <$> evs) ]}) !! k = None.
Proof.
  intros Hk Hk'. rewrite harvest_system_lookup_ne by done.
  by apply lookup_singleton_ne.
Qed.

(** X1: whichever branch chose the content, a returned response holds the
    trimmed stderr under "stderr" exactly when that trim is not empty. *)
Theorem stderr_always_attached stdout stderr r :
  parse json_loads stdout stderr = Return r →
  metadata r !! py "stderr" = stderr_entry stderr.
Proof.
  intros Hparse. rewrite (parse_metadata _ _ _ Hparse).
  apply with_stderr_lookup, harvested_lookup_stderr.
  by apply lookup_singleton_ne.
Qed.

(** X2: the metadata of a returned response has no key besides
    "raw_events", the three system keys, the eight result keys, "error"
    and "stderr". *)
Theorem metadata_keys_bounded stdout stderr r k :
  parse json_loads stdout stderr = Return r →
  is_Some (metadata r !! k) →
  k ∈ py "raw_events" :: system_keys ++ late_keys.
Proof.
  intros Hparse Hsome.
  destruct (decide (k ∈ py "raw_events" :: system_keys ++ late_keys)) as [|Hk];
    [done |].
  apply not_elem_of_cons in Hk as [Hraw Hk].
  apply not_elem_of_app in Hk as [Hsys Hlate].
  assert (k ≠ py "stderr") as Herr.
  { intros ->. apply Hlate. unfold late_keys, result_keys. simpl.
    rewrite !elem_of_cons. auto 12. }
  rewrite (parse_metadata _ _ _ Hparse) in Hsome.
  rewrite with_stderr_lookup_ne, harvested_lookup_early in Hsome by done.
  rewrite system_seed_lookup in Hsome by done.
  by destruct Hsome.
Qed.

(** X3: without a decoded system event a returned response has none of
    the system keys, and without a decoded result event none of the
    result keys and no "error". *)
Theorem absent_events_leave_no_keys stdout stderr r :
  parse json_loads stdout stderr = Return r →
  (last_of_type (py "system") (decoded_events json_loads stdout) = None →
   ∀ k, k ∈ system_keys → metadata r !! k = None)
  ∧ (last_of_type (py "result") (decoded_events json_loads stdout) = None →
     ∀ k, k ∈ result_keys ++ [py "error"] → metadata r !! k = None).
Proof.
  intros Hparse. rewrite (parse_metadata _ _ _ Hparse). split.
  - intros Hsys k Hk. rewrite Hsys.
    unfold system_keys in Hk. rewrite !elem_of_cons in Hk.
    assert (k ≠ py "stderr" ∧ (k ∉ late_keys) ∧ k ≠ py "raw_events") as (? & ? & ?).
    { destruct Hk as [-> | [-> | [-> | Hk]]];
        [| | | by apply elem_of_nil in Hk];
        (split; [done |]; split; [not_a_key | done]). }
    rewrite with_stderr_lookup_ne, harvested_lookup_early by done.
    simpl. by apply lookup_singleton_ne.
  - intros Hres k Hk. rewrite Hres.
    unfold result_keys in Hk. simpl in Hk. rewrite !elem_of_cons in Hk.
    assert (k ≠ py "stderr" ∧ (k ∉ system_keys) ∧ k ≠ py "raw_events") as (? & ? & ?).
    { destruct Hk as [-> | [-> | [-> | [-> | [-> | [-> | [-> | [-> | [-> | Hk]]]]]]]]];
        [| | | | | | | | | by apply elem_of_nil in Hk];
        (split; [done |]; split; [not_a_key | done]). }
    rewrite with_stderr_lookup_ne by done.
    unfold harvested. by apply system_seed_lookup.
Qed.

(** X4: when a result event was decoded, a returned response holds
    "is_error", "num_turns", "duration_ms" and "duration_api_ms" with the
    fields of the last result event; a missing "is_error" reads False, the
    other three read null when missing. *)
Theorem result_counters stdout stderr r (res : dict) :
  parse json_loads stdout stderr = Return r →
  last_of_type (py "result") (decoded_events json_loads stdout) = Some res →
  metadata r !! py "is_error" =
    Some (default (JBool false) (lookup_key res (py "is_error")))
  ∧ metadata r !! py "num_turns" =
      Some (default JNull (lookup_key res (py "num_turns")))
  ∧ metadata r !! py "duration_ms" =
      Some (default JNull (lookup_key res (py "duration_ms")))
  ∧ metadata r !! py "duration_api_ms" =
      Some (default JNull (lookup_key res (py "duration_api_ms"))).
Proof.
  intros Hparse Hres.
  rewrite !(result_metadata _ _ _ _ _ Hparse Hres) by done.
  apply harvest_result_counters.
Qed.

(** X5: "usage" is stored exactly when the last result event holds a dict
    there, and "permission_denials" exactly when it holds a non-empty
    list; the stored value is the field itself. *)
Theorem result_usage_and_denials stdout stderr r (res : dict) :
  parse json_loads stdout stderr = Return r →
  last_of_type (py "result") (decoded_events json_loads stdout) = Some res →
  metadata r !! py "usage" =
    match lookup_key res (py "usage") with
    | Some (JDict d) => Some (JDict d)
    | _ => None
    end
  ∧ metadata r !! py "permission_denials" =
    match lookup_key res (py "permission_denials") with
    | Some (JList (x :: l)) => Some (JList (x :: l))
    | _ => None
    end.
Proof.
  intros Hparse Hres.
  rewrite !(result_metadata _ _ _ _ _ Hparse Hres) by done.
  rewrite harvest_result_usage, harvest_result_denials
    by (apply system_seed_lookup; [not_a_key | done]).
  unfold get, get_default.
  split.
  - by destruct (lookup_key res (py "usage")) as [[]|].
  - by destruct (lookup_key res (py "permission_denials")) as [[| | | | |[|]|]|].
Qed.

(** X6: "model_usage" and "model_used" are stored exactly when the last
    result event holds a non-empty dict under "modelUsage"; "model_used"
    is then the first key of that dict. *)
Theorem result_model_usage stdout stderr r (res : dict) :
  parse json_loads stdout stderr = Return r →
  last_of_type (py "result") (decoded_events json_loads stdout) = Some res →
  match lookup_key res (py "modelUsage") with
  | Some (JDict ((first_model, usage) :: rest)) =>
      metadata r !! py "model_usage" = Some (JDict ((first_model, usage) :: rest))
      ∧ metadata r !! py "model_used" = Some (JStr first_model)
  | _ =>
      metadata r !! py "model_usage" = None
      ∧ metadata r !! py "model_used" = None
  end.
Proof.
  intros Hparse Hres.
  rewrite !(result_metadata _ _ _ _ _ Hparse Hres) by done.
  destruct (harvest_result_models res
              (harvest_system
                 (last_of_type (py "system") (decoded_events json_loads stdout))
                 {[ py "raw_events" :=
                      JList (JDict <$> decoded_events json_loads stdout) ]}))
    as [-> ->]; try (apply system_seed_lookup; [not_a_key | done]).
  unfold get, get_default.
  by destruct (lookup_key res (py "modelUsage")) as [[| | | | | |[|[] ?]]|].
Qed.

(** X7: "error" is stored exactly when the last result event has a truthy
    "is_error" and a dict under "error"; the stored value is that dict. *)
Theorem error_recorded stdout stderr r (res : dict) :
  parse json_loads stdout stderr = Return r →
  last_of_type (py "result") (decoded_events json_loads stdout) = Some res →
  metadata r !! py "error" =
    match lookup_key res (py "error") with
    | Some (JDict info) =>
        if truthy (default JNull (lookup_key res (py "is_error")))
        then Some (JDict info) else None
    | _ => None
    end.
Proof.
  intros Hparse Hres.
  rewrite (parse_metadata _ _ _ Hparse), Hres.
  rewrite with_stderr_lookup_ne by done.
  unfold harvested. rewrite (last_of_type_truthy _ _ _ Hres).
  rewrite harvest_error_lookup.
  - unfold get, get_default.
    destruct (lookup_key res (py "error")) as [[]|]; simpl;
      by destruct (truthy _).
  - rewrite harvest_result_lookup_ne by not_a_key.
    apply system_seed_lookup; [not_a_key | done].
Qed.

End StreamResponses.

(** ** The stream parser: error results and raised exceptions *)

Section StreamErrors.

Import QwenStreamJsonParser Spec.

Variable json_loads : str → loaded.

Implicit Types (stdout stderr : str) (r : ParsedCLIResponse) (res info : dict).

Lemma collected_errors_cases res :
  collected_errors res = [] ∨ ∃ v, collected_errors res = [v].
Proof.
  unfold collected_errors. destruct (truthy _); [| by left].
  destruct (lookup_key res (py "error")) as [[]|]; eauto.
Qed.

Lemma collected_errors_message res info :
  truthy (default JNull (lookup_key res (py "is_error"))) = true →
  lookup_key res (py "error") = Some (JDict info) →
  collected_errors res =
    [default (JStr (py "Unknown error")) (lookup_key info (py "message"))].
Proof.
  intros His Herr. unfold collected_errors, get, get_default.
  by rewrite His, Herr.
Qed.

Lemma result_text_nonempty res text : result_text res = Some text → text ≠ [].
Proof.
  unfold result_text.
  destruct (lookup_key res (py "result")) as [[]|]; try done.
  destruct (strip s); [done |]. by intros [= <-].
Qed.

(** On an error result without result text and without assistant text,
    [parse] is the join of the collected messages. *)
Lemma parse_error_result stdout stderr res (v : json) :
  uncaught json_loads stdout = [] →
  last_of_type (py "result") (decoded_events json_loads stdout) = Some res →
  result_text res = None →
  from_option assistant_text []
    (last_of_type (py "assistant") (decoded_events json_loads stdout)) = [] →
  collected_errors res = [v] →
  parse json_loads stdout stderr =
    match join_items newline [v] with
    | Return content =>
        Return {| content := content;
                  metadata :=
                    with_stderr stderr
                      (harvested (Some res)
                         (last_of_type (py "system") (decoded_events json_loads stdout))
                         {[ py "raw_events" :=
                              JList (JDict <$> decoded_events json_loads stdout) ]}) |}
    | Raise e => Raise e
    end.
Proof.
  intros Hcaught Hres Htext Ha Herrs.
  rewrite parse_nonblank by first [by eapply last_of_type_stdout | done].
  simpl. rewrite respond_spec, Hres, Ha. simpl. rewrite Htext, Herrs.
  reflexivity.
Qed.

(** X8: on a stdout whose brace lines [json.loads] decodes or rejects
    with [json.JSONDecodeError], when the last result event has a truthy
    "is_error" and a dict under "error", and neither a result text nor an
    assistant text is there, the content is the "message" of that dict as it stands, not
    trimmed, or "Unknown error" when the dict has no such key; the dict is
    stored under "error". *)
Theorem error_message_is_content stdout stderr res info (msg : str) :
  uncaught json_loads stdout = [] →
  last_of_type (py "result") (decoded_events json_loads stdout) = Some res →
  result_text res = None →
  from_option assistant_text []
    (last_of_type (py "assistant") (decoded_events json_loads stdout)) = [] →
  truthy (default JNull (lookup_key res (py "is_error"))) = true →
  lookup_key res (py "error") = Some (JDict info) →
  default (JStr (py "Unknown error")) (lookup_key info (py "message")) = JStr msg →
  ∃ md,
    parse json_loads stdout stderr = Return {| content := msg; metadata := md |}
    ∧ md !! py "error" = Some (JDict info)
    ∧ md !! py "stderr" = stderr_entry stderr.
Proof.
  intros Hcaught Hres Htext Ha His Herr Hmsg.
  rewrite (parse_error_result _ _ _ (JStr msg) Hcaught Hres Htext Ha)
    by (by rewrite (collected_errors_message _ _ His Herr), Hmsg).
  simpl. eexists. split; [reflexivity |].
  assert (harvest_system
            (last_of_type (py "system") (decoded_events json_loads stdout))
            {[ py "raw_events" :=
                 JList (JDict <$> decoded_events json_loads stdout) ]}
          !! py "error" = None) as Hseed.
  { rewrite harvest_system_lookup_ne; [by apply lookup_singleton_ne |].
    unfold system_keys. rewrite !not_elem_of_cons.
    repeat split; try done. apply not_elem_of_nil. }
  split.
  - rewrite with_stderr_lookup_ne by done.
    unfold harvested.
    apply last_of_type_has_type in Hres as [_ Htype].
    rewrite (has_type_nonempty _ _ Htype).
    rewrite harvest_error_lookup.
    + unfold get, get_default. by rewrite His, Herr.
    + rewrite harvest_result_lookup_ne; [done |].
      unfold result_keys. rewrite !not_elem_of_cons.
      repeat split; try done. apply not_elem_of_nil.
  - apply with_stderr_lookup, harvested_lookup_stderr.
    by apply lookup_singleton_ne.
Qed.

(** X9: in the same situation, with every brace line decoded or rejected
    with [json.JSONDecodeError], a "message" that is not a string makes
    the join of line 110 raise TypeError: [parse] leaves through an
    exception that is not a ParserError. *)
Theorem error_message_not_text_raises stdout stderr res info (v : json) :
  uncaught json_loads stdout = [] →
  last_of_type (py "result") (decoded_events json_loads stdout) = Some res →
  result_text res = None →
  from_option assistant_text []
    (last_of_type (py "assistant") (decoded_events json_loads stdout)) = [] →
  truthy (default JNull (lookup_key res (py "is_error"))) = true →
  lookup_key res (py "error") = Some (JDict info) →
  lookup_key info (py "message") = Some v →
  (∀ s, v ≠ JStr s) →
  parse json_loads stdout stderr = Raise TypeError.
Proof.
  intros Hcaught Hres Htext Ha His Herr Hmsg Hv.
  rewrite (parse_error_result _ _ _ v Hcaught Hres Htext Ha)
    by (by rewrite (collected_errors_message _ _ His Herr), Hmsg).
  unfold join_items. destruct v; try done.
  by destruct (Hv s).
Qed.

(** X10: a returned content is empty only on the error path, when the
    collected message is the empty string. *)
Theorem blank_content_only_from_errors stdout stderr r :
  parse json_loads stdout stderr = Return r →
  content r = [] →
  ∃ res,
    last_of_type (py "result") (decoded_events json_loads stdout) = Some res
    ∧ collected_errors res = [JStr []].
Proof.
  intros Hparse Hblank.
  apply parse_Return_respond in Hparse.
  simpl in Hparse. rewrite respond_spec in Hparse. simpl in Hparse.
  destruct (last_of_type (py "result") _) as [res|]; simpl in Hparse.
  - destruct (result_text res) as [text|] eqn:Htext.
    { injection Hparse as <-. by apply result_text_nonempty in Htext. }
    destruct (from_option assistant_text [] _); [| by injection Hparse as <-].
    unfold errors_branch in Hparse.
    destruct (collected_errors_cases res) as [Hnone | [v Hone]].
    + rewrite Hnone in Hparse. simpl in Hparse.
      rewrite last_resort_spec in Hparse.
      destruct (stderr_entry stderr); [by injection Hparse as <- | done].
    + rewrite Hone in Hparse. simpl in Hparse.
      exists res. split; [done |].
      unfold join_items in Hparse. destruct v; try done.
      simpl in Hparse. injection Hparse as <-. simpl in Hblank.
      by rewrite Hone, Hblank.
  - destruct (from_option assistant_text [] _); [| by injection Hparse as <-].
    unfold errors_branch in Hparse. simpl in Hparse.
    rewrite last_resort_spec in Hparse.
    destruct (stderr_entry stderr); [by injection Hparse as <- | done].
Qed.

(** X11: the exceptions [parse] leaves through: the ParserError about
    empty stdout when stdout is blank; on a non-blank stdout, the first
    exception other than [json.JSONDecodeError] that [json.loads] raises
    on a brace line; when there is none, the ParserError about the
    missing result when stderr is blank, or a TypeError when the message
    collected from an error result is not a string. *)
Theorem parse_raises_only stdout stderr (e : exn) :
  parse json_loads stdout stderr = Raise e →
  (strip stdout = [] ∧ e = ParserError empty_stdout_message)
  ∨ (strip stdout ≠ [] ∧ head (uncaught json_loads stdout) = Some e)
  ∨ (strip stdout ≠ [] ∧ uncaught json_loads stdout = []
     ∧ strip stderr = [] ∧ e = ParserError no_result_message)
  ∨ (strip stdout ≠ [] ∧ uncaught json_loads stdout = [] ∧ e = TypeError
     ∧ ∃ res v,
         last_of_type (py "result") (decoded_events json_loads stdout) = Some res
         ∧ collected_errors res = [v] ∧ ∀ s, v ≠ JStr s).
Proof.
  intros Hparse.
  destruct (strip stdout) as [|c text] eqn:Hout.
  { left. split; [done |].
    unfold parse in Hparse. rewrite Hout in Hparse. by injection Hparse as <-. }
  right.
  destruct (uncaught json_loads stdout) as [|e' rest] eqn:Hcaught.
  2: { left. split; [done |].
       rewrite (parse_uncaught _ _ _ e' rest) in Hparse;
         [by injection Hparse as <- | by rewrite Hout | done]. }
  right.
  rewrite parse_nonblank in Hparse; [| by rewrite Hout | done].
  simpl in Hparse. rewrite respond_spec in Hparse. simpl in Hparse.
  assert (∀ md, last_resort stderr md = Raise e →
                strip stderr = [] ∧ e = ParserError no_result_message) as Hlast.
  { intros md. unfold last_resort. rewrite truthy_and_strip.
    destruct (strip stderr); simpl; [| done]. by intros [= <-]. }
  destruct (last_of_type (py "result") _) as [res|]; simpl in Hparse.
  - destruct (result_text res) as [text'|]; [done |].
    destruct (from_option assistant_text [] _); [| done].
    unfold errors_branch in Hparse.
    destruct (collected_errors_cases res) as [Hnone | [v Hone]].
    + rewrite Hnone in Hparse. simpl in Hparse.
      apply Hlast in Hparse as [? ?]. by left.
    + rewrite Hone in Hparse. simpl in Hparse. right.
      unfold join_items in Hparse.
      destruct v; simpl in Hparse; try done;
        injection Hparse as <-;
        (split; [done |]; split; [done |]; split; [done |]; eexists _, _;
         split; [done |]; split; [done |]; done).
  - destruct (from_option assistant_text [] _); [| done].
    unfold errors_branch in Hparse. simpl in Hparse.
    apply Hlast in Hparse as [? ?]. by left.
Qed.

Lemma with_stderr_trim stderr stderr' (md : gmap str json) :
  strip stderr = strip stderr' → with_stderr stderr md = with_stderr stderr' md.
Proof. intros H. unfold with_stderr. by rewrite !truthy_and_strip, H. Qed.

Lemma errors_branch_trim (errors : list json) stderr stderr' (md : gmap str json) :
  strip stderr = strip stderr' →
  errors_branch errors stderr md = errors_branch errors stderr' md.
Proof.
  intros H. unfold errors_branch, last_resort.
  by rewrite (with_stderr_trim _ _ _ H), !truthy_and_strip, H.
Qed.

(** X12: [parse] reads stderr through its trim only: two stderr texts
    with the same trim give the same outcome. *)
Theorem stderr_read_through_trim stdout stderr stderr' :
  strip stderr = strip stderr' →
  parse json_loads stdout stderr = parse json_loads stdout stderr'.
Proof.
  intros H. unfold parse. destruct (negb _); [done |]. simpl.
  destruct (scan json_loads (lines_of stdout)) as [st|e]; [| done].
  unfold build_response. rewrite !respond_spec. simpl.
  by rewrite !(with_stderr_trim _ _ _ H), (errors_branch_trim _ _ _ _ H).
Qed.

Lemma block_part_nonempty (block : json) (part : str) :
  block_part block = Some part → part ≠ [].
Proof.
  unfold block_part. destruct block as [| | | | | |b]; try done.
  destruct (has_type (py "text") b).
  { destruct (lookup_key b (py "text")) as [[]|]; try done.
    destruct (strip s); [done |]. by intros [= <-]. }
  destruct (has_type (py "thinking") b); [| done].
  destruct (lookup_key b (py "thinking")) as [[]|]; try done.
  destruct (strip s); [done |]. by intros [= <-].
Qed.

Lemma join_nonempty (sep part : str) (parts : list str) :
  part ≠ [] → join sep (part :: parts) ≠ [].
Proof. destruct part, parts; simpl; done. Qed.

(** X13: a text returned by [_extract_assistant_text] is never empty, so
    the test of line 101 fails only on None. *)
Theorem extracted_text_nonempty (assistant_msg : dict) (text : str) :
  _extract_assistant_text assistant_msg = Some text → text ≠ [].
Proof.
  unfold _extract_assistant_text.
  destruct (get assistant_msg (py "message")) as [| | | | | |message]; try done.
  destruct (get message (py "content")) as [| | | | |blocks|]; try done.
  rewrite fold_extract_block. simpl.
  destruct (omap block_part blocks) as [|part parts] eqn:Hparts;
    cbn [truthy_seq]; [done |].
  intros Htext. apply (inj Some) in Htext. subst text. apply join_nonempty.
  assert (part ∈ omap block_part blocks) as Hin by (rewrite Hparts; left).
  apply list_elem_of_omap in Hin as (block & _ & Hblock).
  by eapply block_part_nonempty.
Qed.

End StreamErrors.

(** ** The plaintext parser and the recovery hook, together *)

Section CopilotTogether.

Import Spec.

Implicit Types (stdout stderr text : str) (self : CopilotAgent.t).

Lemma combined_output_nil stdout stderr :
  combined_output stdout stderr = [] ↔ strip stdout = [] ∧ strip stderr = [].
Proof.
  unfold combined_output.
  destruct stdout as [|c s], stderr as [|c' s']; try (rewrite strip_nil; tauto).
  rewrite !strip_app_nil.
  assert (strip newline = []) as -> by reflexivity. tauto.
Qed.

(** X14: the content the plaintext parser returns is never empty and has
    no white space left at either end. *)
Theorem plaintext_content_trimmed stdout stderr (r : ParsedCLIResponse) :
  CopilotPlaintextParser.parse stdout stderr = Return r →
  content r ≠ [] ∧ strip (content r) = content r.
Proof.
  unfold CopilotPlaintextParser.parse.
  destruct (strip stdout) as [|c text] eqn:Hout; simpl.
  - destruct (strip stderr); simpl; [done |].
    intros [= <-]. simpl. split; [done | by vm_compute].
  - intros [= <-]. simpl. split; [done |].
    rewrite <- Hout. apply strip_idem.
Qed.

(** X15: the plaintext parser reads both texts through their trims only:
    on the trimmed texts it gives the same outcome. *)
Theorem plaintext_reads_trims stdout stderr :
  CopilotPlaintextParser.parse (strip stdout) (strip stderr) =
  CopilotPlaintextParser.parse stdout stderr.
Proof. unfold CopilotPlaintextParser.parse. by rewrite !strip_idem. Qed.

(** X16: the recovery hook declines exactly on the outputs on which the
    plaintext parser raises its ParserError: when both texts are blank. *)
Theorem recovery_declines_iff_parser_raises self (rc : Z) stdout stderr
    (cmd : list str) (dur : spec_float) (file : option str) :
  CopilotAgent._recover_from_error self rc stdout stderr cmd dur file = None
  ↔ CopilotPlaintextParser.parse stdout stderr =
      Raise (ParserError (py "Copilot CLI returned empty output")).
Proof.
  trans (strip stdout = [] ∧ strip stderr = []).
  - rewrite <- combined_output_nil.
    unfold CopilotAgent._recover_from_error. rewrite combined_join.
    by destruct (combined_output stdout stderr).
  - unfold CopilotPlaintextParser.parse.
    destruct (strip stdout), (strip stderr); simpl; split; try done; by intros [? ?].
Qed.

(** X17: a recovered result carries the captured texts, the command, the
    duration and the file content as they were passed, and its metadata
    has the two recovery entries and no other: stderr is not copied in. *)
Theorem recovery_passes_through self (rc : Z) stdout stderr
    (cmd : list str) (dur : spec_float) (file : option str) (res : AgentOutput) :
  CopilotAgent._recover_from_error self rc stdout stderr cmd dur file = Some res →
  Base.stdout res = stdout ∧ Base.stderr res = stderr
  ∧ sanitized_command res = cmd ∧ duration_seconds res = dur
  ∧ output_file_content res = file
  ∧ ∀ k, k ≠ py "cli_error_recovered" → k ≠ py "cli_returncode" →
         metadata (parsed res) !! k = None.
Proof.
  unfold CopilotAgent._recover_from_error.
  destruct (truthy_seq _); simpl; [| done].
  intros [= <-]. simpl. repeat split.
  intros k Hk Hk'. by rewrite !lookup_insert_ne.
Qed.

(** X18: the recovered content is never empty and has no white space left
    at either end. *)
Theorem recovery_content_trimmed self (rc : Z) stdout stderr
    (cmd : list str) (dur : spec_float) (file : option str) (res : AgentOutput) :
  CopilotAgent._recover_from_error self rc stdout stderr cmd dur file = Some res →
  content (parsed res) ≠ [] ∧ strip (content (parsed res)) = content (parsed res).
Proof.
  unfold CopilotAgent._recover_from_error.
  destruct (truthy_seq _) eqn:Hink; simpl; [| done].
  intros [= <-]. simpl. split; [by apply truthy_seq_true | apply strip_idem].
Qed.

(** X19: on a text with ink captured on one stream only, the hook recovers
    it: from stdout it is the content the plaintext parser returns, from
    stderr it is the text the parser stores under "stderr" beside its
    placeholder. *)
Theorem recovery_of_one_stream self (rc : Z) text
    (cmd : list str) (dur : spec_float) (file : option str) :
  strip text ≠ [] →
  (∃ res,
     CopilotAgent._recover_from_error self rc text [] cmd dur file = Some res
     ∧ CopilotPlaintextParser.parse text [] =
         Return {| content := content (parsed res); metadata := ∅ |})
  ∧ (∃ res,
       CopilotAgent._recover_from_error self rc [] text cmd dur file = Some res
       ∧ CopilotPlaintextParser.parse [] text =
           Return {| content := CopilotPlaintextParser.placeholder;
                     metadata := {[ py "stderr" := JStr (content (parsed res)) ]} |}).
Proof.
  intros Hink.
  assert (text ≠ []) as Htext by (by intros ->).
  unfold CopilotAgent._recover_from_error, CopilotPlaintextParser.parse.
  destruct text as [|c text]; [done |]. simpl.
  destruct (strip (c :: text)) as [|d trimmed]; [done |]. simpl.
  split; eexists; split; reflexivity.
Qed.

End CopilotTogether.

(** ** The further properties on the sample streams *)

Section MoreWitnesses.

Import QwenStreamJsonParser Spec Samples ErrorSamples.

Lemma stderr_always_attached_witness :
  ∃ r,
    parse loads_errors error_stdout warning = Return r
    ∧ metadata r !! py "stderr" = Some (JStr (py "warning: slow network")).
Proof.
  assert (∃ r, parse loads_errors error_stdout warning = Return r) as [r Hr].
  { vm_compute. eexists. reflexivity. }
  exists r. split; [exact Hr |].
  rewrite (stderr_always_attached loads_errors error_stdout warning r Hr).
  vm_compute. reflexivity.
Defined.

Lemma metadata_keys_bounded_witness :
  ∃ r,
    parse loads_errors error_stdout warning = Return r
    ∧ is_Some (metadata r !! py "usage")
    ∧ py "usage" ∈ py "raw_events" :: system_keys ++ late_keys.
Proof.
  assert (∃ r, parse loads_errors error_stdout warning = Return r
               ∧ is_Some (metadata r !! py "usage")) as (r & Hr & Hsome).
  { eexists. split; [vm_compute; reflexivity |]. vm_compute. by eexists. }
  exists r. split; [exact Hr |]. split; [exact Hsome |].
  exact (metadata_keys_bounded loads_errors error_stdout warning r (py "usage")
           Hr Hsome).
Defined.

Lemma absent_events_leave_no_keys_witness :
  ∃ r,
    parse loads assistant_line [] = Return r
    ∧ metadata r !! py "model" = None
    ∧ metadata r !! py "is_error" = None.
Proof.
  assert (∃ r, parse loads assistant_line [] = Return r) as [r Hr].
  { vm_compute. eexists. reflexivity. }
  exists r. split; [exact Hr |].
  destruct (absent_events_leave_no_keys loads assistant_line [] r Hr)
    as [Hsys Hres].
  split.
  - apply Hsys; [vm_compute; reflexivity |].
    unfold system_keys. rewrite !elem_of_cons. auto.
  - apply Hres; [vm_compute; reflexivity |].
    unfold result_keys. simpl. rewrite !elem_of_cons. auto.
Defined.

Lemma result_counters_witness :
  ∃ r,
    parse loads_errors error_stdout warning = Return r
    ∧ metadata r !! py "is_error" = Some (JBool true)
    ∧ metadata r !! py "num_turns" = Some (JInt 2)
    ∧ metadata r !! py "duration_ms" = Some JNull
    ∧ metadata r !! py "duration_api_ms" = Some JNull.
Proof.
  assert (∃ r, parse loads_errors error_stdout warning = Return r) as [r Hr].
  { vm_compute. eexists. reflexivity. }
  exists r. split; [exact Hr |].
  destruct (result_counters loads_errors error_stdout warning r error_event Hr)
    as (-> & -> & -> & ->); [vm_compute; reflexivity |].
  repeat split; vm_compute; reflexivity.
Defined.

Lemma result_usage_and_denials_witness :
  ∃ r,
    parse loads_errors error_stdout warning = Return r
    ∧ metadata r !! py "usage" = Some (JDict [(py "input_tokens", JInt 3)])
    ∧ metadata r !! py "permission_denials" = Some (JList [JStr (py "rm")]).
Proof.
  assert (∃ r, parse loads_errors error_stdout warning = Return r) as [r Hr].
  { vm_compute. eexists. reflexivity. }
  exists r. split; [exact Hr |].
  destruct (result_usage_and_denials loads_errors error_stdout warning r
              error_event Hr)
    as (-> & ->); [vm_compute; reflexivity |].
  split; vm_compute; reflexivity.
Defined.

Lemma result_model_usage_witness :
  ∃ r,
    parse loads_errors error_stdout warning = Return r
    ∧ metadata r !! py "model_usage" =
        Some (JDict [(py "qwen-max", JInt 1); (py "qwen-lite", JInt 2)])
    ∧ metadata r !! py "model_used" = Some (JStr (py "qwen-max")).
Proof.
  assert (∃ r, parse loads_errors error_stdout warning = Return r) as [r Hr].
  { vm_compute. eexists. reflexivity. }
  exists r. split; [exact Hr |].
  assert (last_of_type (py "result") (decoded_events loads_errors error_stdout)
          = Some error_event) as Hres by (vm_compute; reflexivity).
  pose proof (result_model_usage loads_errors error_stdout warning r
                error_event Hr Hres) as H.
  assert (lookup_key error_event (py "modelUsage") =
          Some (JDict [(py "qwen-max", JInt 1); (py "qwen-lite", JInt 2)]))
    as Hfield by (vm_compute; reflexivity).
  rewrite Hfield in H. destruct H as [-> ->].
  split; vm_compute; reflexivity.
Defined.

Lemma error_recorded_witness :
  ∃ r,
    parse loads_errors error_stdout warning = Return r
    ∧ metadata r !! py "error" =
        Some (JDict [(py "message", JStr (py "Rate limit exceeded"))]).
Proof.
  assert (∃ r, parse loads_errors error_stdout warning = Return r) as [r Hr].
  { vm_compute. eexists. reflexivity. }
  exists r. split; [exact Hr |].
  rewrite (error_recorded loads_errors error_stdout warning r error_event Hr)
    by (vm_compute; reflexivity).
  vm_compute. reflexivity.
Defined.

Lemma error_message_is_content_witness :
  ∃ md,
    parse loads_errors error_stdout warning =
      Return {| content := py "Rate limit exceeded"; metadata := md |}
    ∧ md !! py "error" =
        Some (JDict [(py "message", JStr (py "Rate limit exceeded"))])
    ∧ md !! py "stderr" = stderr_entry warning.
Proof.
  apply (error_message_is_content loads_errors error_stdout warning error_event
           [(py "message", JStr (py "Rate limit exceeded"))]
           (py "Rate limit exceeded"));
    vm_compute; reflexivity.
Defined.

Lemma error_message_not_text_raises_witness :
  parse loads_errors coded_error_stdout warning = Raise TypeError.
Proof.
  apply (error_message_not_text_raises loads_errors coded_error_stdout warning
           coded_error_event [(py "message", JInt 429)] (JInt 429));
    try (vm_compute; reflexivity).
  intros s. discriminate.
Defined.

Lemma blank_content_only_from_errors_witness :
  ∃ res,
    last_of_type (py "result") (decoded_events loads_errors blank_error_stdout)
      = Some res
    ∧ collected_errors res = [JStr []].
Proof.
  eapply (blank_content_only_from_errors loads_errors blank_error_stdout []).
  - vm_compute. reflexivity.
  - reflexivity.
Defined.

Lemma stderr_read_through_trim_witness :
  parse loads full_stdout warning =
  parse loads full_stdout (py "warning: slow network").
Proof.
  apply (stderr_read_through_trim loads full_stdout warning
           (py "warning: slow network")).
  vm_compute. reflexivity.
Defined.

Lemma extracted_text_nonempty_witness :
  _extract_assistant_text assistant_event =
    Some (py "[Thinking: Let me see]" ++ newline ++ newline
          ++ py "The answer is 42.")
  ∧ py "[Thinking: Let me see]" ++ newline ++ newline ++ py "The answer is 42."
    ≠ [].
Proof.
  assert (_extract_assistant_text assistant_event =
            Some (py "[Thinking: Let me see]" ++ newline ++ newline
                  ++ py "The answer is 42.")) as Htext
    by (vm_compute; reflexivity).
  split; [exact Htext |].
  exact (extracted_text_nonempty assistant_event _ Htext).
Defined.

Lemma plaintext_content_trimmed_witness :
  ∃ r,
    CopilotPlaintextParser.parse (py " answer ") warning = Return r
    ∧ content r ≠ [] ∧ strip (content r) = content r.
Proof.
  assert (∃ r, CopilotPlaintextParser.parse (py " answer ") warning = Return r)
    as [r Hr].
  { vm_compute. eexists. reflexivity. }
  exists r. split; [exact Hr |].
  exact (plaintext_content_trimmed (py " answer ") warning r Hr).
Defined.

Lemma recovery_passes_through_witness :
  ∃ res,
    CopilotAgent._recover_from_error
      {| CopilotAgent._parser := CopilotPlaintextParser.parser |}
      2 (py " partial ") warning [py "copilot"; py "--silent"]
      (S754_zero false) None = Some res
    ∧ Base.stdout res = py " partial " ∧ Base.stderr res = warning
    ∧ metadata (parsed res) !! py "stderr" = None.
Proof.
  assert (∃ res,
            CopilotAgent._recover_from_error
              {| CopilotAgent._parser := CopilotPlaintextParser.parser |}
              2 (py " partial ") warning [py "copilot"; py "--silent"]
              (S754_zero false) None = Some res) as [res Hres].
  { vm_compute. eexists. reflexivity. }
  exists res. split; [exact Hres |].
  destruct (recovery_passes_through _ _ _ _ _ _ _ res Hres)
    as (Hout & Herr & _ & _ & _ & Hkeys).
  split; [exact Hout |]. split; [exact Herr |].
  apply Hkeys; vm_compute; discriminate.
Defined.

Lemma recovery_content_trimmed_witness :
  ∃ res,
    CopilotAgent._recover_from_error
      {| CopilotAgent._parser := CopilotPlaintextParser.parser |}
      2 (py " partial ") warning [py "copilot"; py "--silent"]
      (S754_zero false) None = Some res
    ∧ content (parsed res) ≠ []
    ∧ strip (content (parsed res)) = content (parsed res).
Proof.
  assert (∃ res,
            CopilotAgent._recover_from_error
              {| CopilotAgent._parser := CopilotPlaintextParser.parser |}
              2 (py " partial ") warning [py "copilot"; py "--silent"]
              (S754_zero false) None = Some res) as [res Hres].
  { vm_compute. eexists. reflexivity. }
  exists res. split; [exact Hres |].
  exact (recovery_content_trimmed _ _ _ _ _ _ _ res Hres).
Defined.

Lemma recovery_of_one_stream_witness :
  (∃ res,
     CopilotAgent._recover_from_error
       {| CopilotAgent._parser := CopilotPlaintextParser.parser |}
       1 warning [] [py "copilot"] (S754_zero false) None = Some res
     ∧ CopilotPlaintextParser.parse warning [] =
         Return {| content := content (parsed res); metadata := ∅ |})
  ∧ (∃ res,
       CopilotAgent._recover_from_error
         {| CopilotAgent._parser := CopilotPlaintextParser.parser |}
         1 [] warning [py "copilot"] (S754_zero false) None = Some res
       ∧ CopilotPlaintextParser.parse [] warning =
           Return {| content := CopilotPlaintextParser.placeholder;
                     metadata := {[ py "stderr" := JStr (content (parsed res)) ]} |}).
Proof.
  apply (recovery_of_one_stream
           {| CopilotAgent._parser := CopilotPlaintextParser.parser |}
           1 warning [py "copilot"] (S754_zero false) None).
  vm_compute. discriminate.
Defined.

End MoreWitnesses.

(** * Streams on which [json.loads] raises *)

(** ** The lines of a stream joined by line feeds *)

Section LineFacts.

Import QwenStreamJsonParser Spec Samples.

Implicit Types (s t cur line : str) (c d : N).

(** A text without line boundary is read into the current line. *)
Lemma splitlines_from_line s : ∀ cur t,
  forallb (λ c, negb (islinebreak c)) s = true →
  splitlines_from cur (s ++ t) = splitlines_from (rev s ++ cur) t.
Proof.
  induction s as [|c s IH]; intros cur t Hs; [done |].
  cbn [forallb] in Hs. apply andb_true_iff in Hs as [Hc Hs].
  apply negb_true_iff in Hc.
  cbn [app rev splitlines_from]. rewrite Hc, IH by done.
  by rewrite <- app_assoc.
Qed.

Lemma splitlines_line_then s t :
  forallb (λ c, negb (islinebreak c)) s = true →
  splitlines (s ++ newline ++ t) = s :: splitlines t.
Proof.
  intros Hs. unfold splitlines. rewrite splitlines_from_line by done.
  rewrite app_nil_r. unfold newline. cbn [app splitlines_from].
  change (islinebreak 10) with true. cbv iota.
  rewrite rev_involutive. by destruct t.
Qed.

Lemma splitlines_last_line s :
  forallb (λ c, negb (islinebreak c)) s = true → s ≠ [] → splitlines s = [s].
Proof.
  intros Hs Hne. unfold splitlines.
  rewrite <- (app_nil_r s) at 1. rewrite splitlines_from_line by done.
  rewrite app_nil_r. cbn [splitlines_from].
  destruct (rev s) as [|c r] eqn:Hrev;
    [apply (proj1 (rev_nil_iff s)) in Hrev; contradiction |].
  by rewrite <- Hrev, rev_involutive.
Qed.

(** A text that starts and ends with ink is its own trim. *)
Lemma strip_fixed (pre : str) d :
  (∀ c, head (pre ++ [d]) = Some c → isspace c = false) →
  isspace d = false →
  strip (pre ++ [d]) = pre ++ [d].
Proof.
  intros Hhead Hd. unfold strip. rewrite lstrip_fixed by done.
  unfold rstrip. rewrite rev_app_distr. cbn [rev app lstrip]. rewrite Hd.
  cbn [rev]. by rewrite rev_involutive.
Qed.

(** The lines of a stream are the lines it was joined from, when each is
    its own trim, holds ink and holds no line boundary. *)
Lemma lines_of_stream (lines : list str) :
  Forall (λ line, forallb (λ c, negb (islinebreak c)) line = true
                  ∧ strip line = line ∧ line ≠ []) lines →
  lines_of (stream lines) = lines.
Proof.
  unfold lines_of, stream.
  induction 1 as [|line lines (Hlb & Hstrip & Hne) _ IH]; [done |].
  assert (truthy_seq line = true) as Hink by (by apply truthy_seq_true).
  destruct lines as [|line' lines].
  - cbn [join]. rewrite splitlines_last_line by done.
    cbn [List.filter]. rewrite Hstrip, Hink. cbn [map]. by rewrite Hstrip.
  - change (join newline (line :: line' :: lines))
      with (line ++ newline ++ join newline (line' :: lines)).
    rewrite splitlines_line_then by done.
    cbn [List.filter]. rewrite Hstrip, Hink. cbn [map]. by rewrite Hstrip, IH.
Qed.

Lemma stream_nonblank line (lines : list str) :
  strip line ≠ [] → truthy_seq (strip (stream (line :: lines))) = true.
Proof.
  intros Hink%strip_ink. apply truthy_seq_true, strip_ink.
  unfold stream. destruct lines; cbn [join]; [done |].
  apply Exists_app. by left.
Qed.

End LineFacts.

(** ** The sample streams with a line that [json.loads] does not decode *)

Section UncaughtStreams.

Import QwenStreamJsonParser Spec Samples UncaughtSamples.

Local Abbreviation clean :=
  (λ line : str, forallb (λ c, negb (islinebreak c)) line = true
                 ∧ strip line = line ∧ line ≠ []).

Lemma decoded_events_lines (json_loads : str → loaded) (stdout : str) :
  decoded_events json_loads stdout =
    omap (decoded json_loads)
      (List.filter (λ line, startswith line (py "{")) (lines_of stdout)).
Proof. unfold decoded_events, brace_lines. by rewrite lines_of_trimmed. Qed.

Lemma uncaught_lines (json_loads : str → loaded) (stdout : str) :
  uncaught json_loads stdout =
    omap (let_through json_loads)
      (List.filter (λ line, startswith line (py "{")) (lines_of stdout)).
Proof. unfold uncaught, brace_lines. by rewrite lines_of_trimmed. Qed.

Lemma system_line_clean : clean system_line.
Proof. repeat split; vm_compute; [reflexivity .. | discriminate]. Qed.

Lemma result_line_clean : clean result_line.
Proof. repeat split; vm_compute; [reflexivity .. | discriminate]. Qed.

Lemma assistant_line_clean : clean assistant_line.
Proof. repeat split; vm_compute; [reflexivity .. | discriminate]. Qed.

Lemma deep_line_clean : clean deep_line.
Proof.
  split; [vm_compute; reflexivity |].
  split; [| vm_compute; discriminate].
  unfold deep_line. rewrite !app_assoc. apply (strip_fixed _ 0x7D); [| reflexivity].
  intros c Hc. vm_compute in Hc. by injection Hc as <-.
Qed.

Lemma digits_line_clean : clean digits_line.
Proof.
  split; [vm_compute; reflexivity |].
  split; [| vm_compute; discriminate].
  unfold digits_line. rewrite !app_assoc. apply (strip_fixed _ 0x7D); [| reflexivity].
  intros c Hc. vm_compute in Hc. by injection Hc as <-.
Qed.

Lemma lines_result_then_deep :
  lines_of result_then_deep = [system_line; result_line; deep_line].
Proof.
  apply lines_of_stream.
  repeat first [apply Forall_nil_2 | apply Forall_cons_2];
    [apply system_line_clean | apply result_line_clean | apply deep_line_clean].
Qed.

Lemma lines_assistant_then_digits :
  lines_of assistant_then_digits = [assistant_line; digits_line].
Proof.
  apply lines_of_stream.
  repeat first [apply Forall_nil_2 | apply Forall_cons_2];
    [apply assistant_line_clean | apply digits_line_clean].
Qed.

Lemma lines_deep_line : lines_of deep_line = [deep_line].
Proof.
  apply (lines_of_stream [deep_line]).
  repeat first [apply Forall_nil_2 | apply Forall_cons_2]. apply deep_line_clean.
Qed.

Lemma decoded_result_then_deep :
  decoded_events loads_uncaught result_then_deep = [system_event; result_event].
Proof.
  rewrite decoded_events_lines, lines_result_then_deep. vm_compute. reflexivity.
Qed.

Lemma decoded_assistant_then_digits :
  decoded_events loads_uncaught assistant_then_digits = [assistant_event].
Proof.
  rewrite decoded_events_lines, lines_assistant_then_digits. vm_compute. reflexivity.
Qed.

Lemma decoded_deep_line : decoded_events loads_uncaught deep_line = [].
Proof.
  rewrite decoded_events_lines, lines_deep_line. vm_compute. reflexivity.
Qed.

(** On the stream that ends in the deep line, [parse] raises what
    [json.loads] raised there. *)
Lemma parse_result_then_deep :
  parse loads_uncaught result_then_deep warning = Raise RecursionError.
Proof.
  apply (parse_uncaught _ _ _ _ []).
  - apply stream_nonblank. vm_compute. discriminate.
  - rewrite uncaught_lines, lines_result_then_deep. vm_compute. reflexivity.
Qed.

Lemma parse_assistant_then_digits :
  parse loads_uncaught assistant_then_digits [] = Raise ValueError.
Proof.
  apply (parse_uncaught _ _ _ _ []).
  - apply stream_nonblank. vm_compute. discriminate.
  - rewrite uncaught_lines, lines_assistant_then_digits. vm_compute. reflexivity.
Qed.

Lemma deep_line_nonblank : strip deep_line ≠ [].
Proof.
  destruct deep_line_clean as (_ & -> & Hne). exact Hne.
Qed.

Lemma parse_deep_line :
  parse loads_uncaught deep_line warning = Raise RecursionError.
Proof.
  apply (parse_uncaught _ _ _ _ []).
  - apply truthy_seq_true, deep_line_nonblank.
  - rewrite uncaught_lines, lines_deep_line. vm_compute. reflexivity.
Qed.

(** The claim C1 without the condition on [json.loads]: a result event
    with the text " Done. " is decoded, [json.loads] raises RecursionError
    on the line after it, and [parse] raises where the claim has it
    return "Done.". *)
Lemma result_branch_wins_counterexample :
  last_of_type (py "result") (decoded_events loads_uncaught result_then_deep)
    = Some result_event
  ∧ lookup_key result_event (py "result") = Some (JStr (py " Done. "))
  ∧ strip (py " Done. ") ≠ []
  ∧ parse loads_uncaught result_then_deep warning = Raise RecursionError.
Proof.
  split; [rewrite decoded_result_then_deep; vm_compute; reflexivity |].
  split; [vm_compute; reflexivity |].
  split; [vm_compute; discriminate |].
  apply parse_result_then_deep.
Qed.

(** The claim C3 without the condition on [json.loads]: an assistant event
    with text is decoded and no result event is, [json.loads] raises
    ValueError on the line after it, and [parse] raises where the claim
    has it return the assistant text. *)
Lemma assistant_fallback_counterexample :
  last_of_type (py "result") (decoded_events loads_uncaught assistant_then_digits)
    ≫= result_text = None
  ∧ last_of_type (py "assistant")
      (decoded_events loads_uncaught assistant_then_digits) = Some assistant_event
  ∧ assistant_text assistant_event ≠ []
  ∧ parse loads_uncaught assistant_then_digits [] = Raise ValueError.
Proof.
  rewrite decoded_assistant_then_digits.
  split; [vm_compute; reflexivity |].
  split; [vm_compute; reflexivity |].
  split; [vm_compute; discriminate |].
  apply parse_assistant_then_digits.
Qed.


(** The claim C7 without the condition on [json.loads]: a non-blank
    stdout that yields no result content, no assistant content and no
    collected error, with a non-blank stderr; [json.loads] raises
    RecursionError on its one line and [parse] raises where the claim has
    it return the placeholder. *)
Lemma stderr_last_resort_counterexample :
  strip deep_line ≠ []
  ∧ last_of_type (py "result") (decoded_events loads_uncaught deep_line)
      ≫= result_text = None
  ∧ from_option assistant_text []
      (last_of_type (py "assistant") (decoded_events loads_uncaught deep_line)) = []
  ∧ from_option collected_errors []
      (last_of_type (py "result") (decoded_events loads_uncaught deep_line)) = []
  ∧ strip warning ≠ []
  ∧ parse loads_uncaught deep_line warning = Raise RecursionError.
Proof.
  rewrite decoded_deep_line.
  split; [apply deep_line_nonblank |].
  split; [reflexivity |].
  split; [reflexivity |].
  split; [reflexivity |].
  split; [vm_compute; discriminate |].
  apply parse_deep_line.
Qed.

Lemma parse_raises_only_witness :
  (strip result_then_deep = [] ∧ RecursionError = ParserError empty_stdout_message)
  ∨ (strip result_then_deep ≠ []
     ∧ head (uncaught loads_uncaught result_then_deep) = Some RecursionError)
  ∨ (strip result_then_deep ≠ [] ∧ uncaught loads_uncaught result_then_deep = []
     ∧ strip warning = [] ∧ RecursionError = ParserError no_result_message)
  ∨ (strip result_then_deep ≠ [] ∧ uncaught loads_uncaught result_then_deep = []
     ∧ RecursionError = TypeError
     ∧ ∃ res v,
         last_of_type (py "result")
           (decoded_events loads_uncaught result_then_deep) = Some res
         ∧ collected_errors res = [v] ∧ ∀ s, v ≠ JStr s).
Proof.
  exact (parse_raises_only loads_uncaught result_then_deep warning RecursionError
           parse_result_then_deep).
Defined.

End UncaughtStreams.
